(** * Customer ordering flow: checkout workflow, order-status view, dashboards

    A shallow embedding of the control logic of the ordering front end:

    - [Js]: the fragments of the JavaScript run time the components rely on
      (string trimming and truthiness, [encodeURIComponent], completion
      records for [return]/[throw], [try]/[catch]/[finally]);
    - [PaymentSuccess]: the order-status view ([getPaymentStatusInfo],
      [fetchOrder], [fetchInvoice], the mount effect, [estimatedTime]);
    - [Checkout]: the checkout dialog ([handleEmailSubmit],
      [handleResendMagicLink], [handleDetailsSubmit], [handleBack], the
      auth-change subscription and the resend cooldown timer);
    - [Dashboard]: the invoice join of the per-restaurant dashboard
      ([getInvoiceForOrder]) and the invoice table of the global one;
    - [StatusPage], [CheckoutView]: what the order-status view and the
      checkout dialog render, and [generateInvoice];
    - [GlobalDashboard], [RestaurantDashboard], [InvoicePrint]: the loading
      and sign-out logic and the status badges of the two dashboards, and
      the print button.

    Strings are sequences of code units below 256; numbers that the code
    only compares, decrements and maximises are integers ([Z]).  Every
    handler is run to completion: the model does not interleave two
    handlers at an [await]. *)

From Stdlib Require Import ZArith Lia Bool Ascii String.
From stdpp Require Import base option list strings gmap.

Local Open Scope string_scope.
Local Open Scope Z_scope.
Local Open Scope list_scope.

(* ===================================================================== *)
(** ** JavaScript run-time fragments *)
(* ===================================================================== *)

Module Js.

(** *** Strings *)

(** [WhiteSpace] and [LineTerminator] code units below 256: TAB, LF, VT,
    FF, CR, SP and NBSP. *)
Definition isWhiteSpace (c : ascii) : bool :=
  let n := nat_of_ascii c in
  (n =? 9)%nat || (n =? 10)%nat || (n =? 11)%nat || (n =? 12)%nat
  || (n =? 13)%nat || (n =? 32)%nat || (n =? 160)%nat.

Fixpoint trimStart (s : string) : string :=
  match s with
  | EmptyString => EmptyString
  | String c rest => if isWhiteSpace c then trimStart rest else s
  end.

Fixpoint trimEnd (s : string) : string :=
  match s with
  | EmptyString => EmptyString
  | String c rest =>
      match trimEnd rest with
      | EmptyString => if isWhiteSpace c then EmptyString else String c EmptyString
      | kept => String c kept
      end
  end.

(** [String.prototype.trim] *)
Definition trim (s : string) : string := trimEnd (trimStart s).

(** [ToBoolean] on a string: only the empty string is falsy. *)
Definition truthy (s : string) : bool :=
  match s with EmptyString => false | String _ _ => true end.

(** [ToBoolean] on [string | null | undefined]. *)
Definition truthyOpt (v : option string) : bool :=
  match v with Some s => truthy s | None => false end.

(** [v === lit] for [v : string | null | undefined] and a string [lit]. *)
Definition strictEq (v : option string) (lit : string) : bool :=
  match v with Some s => String.eqb s lit | None => false end.

(** [a || b] on strings. *)
Definition orElse (a : option string) (b : string) : string :=
  match a with
  | Some s => if truthy s then s else b
  | None => b
  end.

(** [n || 0] on [number | undefined]: a missing value and 0 both give 0. *)
Definition orZero (v : option Z) : Z :=
  match v with Some n => n | None => 0 end.

(** *** [encodeURIComponent] on code units below 256 *)

Definition hexDigit (n : nat) : ascii :=
  ascii_of_nat (if (n <? 10)%nat then 48 + n else 55 + n).

Definition percent (byte : nat) : string :=
  String "%" (String (hexDigit (byte / 16)) (String (hexDigit (byte mod 16)) EmptyString)).

Definition isUnreserved (c : ascii) : bool :=
  let n := nat_of_ascii c in
  ((65 <=? n) && (n <=? 90))%nat || ((97 <=? n) && (n <=? 122))%nat
  || ((48 <=? n) && (n <=? 57))%nat
  || (n =? 45)%nat || (n =? 95)%nat || (n =? 46)%nat || (n =? 33)%nat
  || (n =? 126)%nat || (n =? 42)%nat || (n =? 39)%nat || (n =? 40)%nat
  || (n =? 41)%nat.

(** A code unit from 128 on is two bytes of UTF-8. *)
Definition encodeUnit (c : ascii) : string :=
  let n := nat_of_ascii c in
  if isUnreserved c then String c EmptyString
  else if (n <? 128)%nat then percent n
  else percent (192 + n / 64) +:+ percent (128 + n mod 64).

Fixpoint encodeURIComponent (s : string) : string :=
  match s with
  | EmptyString => EmptyString
  | String c rest => encodeUnit c +:+ encodeURIComponent rest
  end.

(** *** Completions *)

(** A thrown value: an [Error] instance with its message, or anything
    else. *)
Inductive Thrown : Type :=
| JsError (message : string)
| JsOther.

(** [err instanceof Error ? err.message : fallback] *)
Definition messageOr (err : Thrown) (fallback : string) : string :=
  match err with
  | JsError m => m
  | JsOther => fallback
  end.

(** How a statement list ends: normally, by [return], or by [throw]. *)
Inductive Completion (A : Type) : Type :=
| Normal (a : A)
| Return
| Throw (e : Thrown).
Arguments Normal {A} a.
Arguments Return {A}.
Arguments Throw {A} e.

(** What an awaited promise settles to. *)
Inductive Settled (A : Type) : Type :=
| Fulfilled (a : A)
| Rejected (e : Thrown).
Arguments Fulfilled {A} a.
Arguments Rejected {A} e.

(** *** Programs

    A program reads the environment (the external services' answers),
    updates the component state and appends to the trace of external
    effects. *)
Section Programs.
Context {Env St Ev : Type}.

Definition M (A : Type) : Type :=
  Env -> St -> list Ev -> Completion A * St * list Ev.

Definition ret {A} (a : A) : M A := fun _ s t => (Normal a, s, t).

Definition bind {A B} (m : M A) (k : A -> M B) : M B :=
  fun env s t =>
    match m env s t with
    | (Normal a, s', t') => k a env s' t'
    | (Return, s', t') => (Return, s', t')
    | (Throw e, s', t') => (Throw e, s', t')
    end.

Definition jsReturn {A} : M A := fun _ s t => (Return, s, t).
Definition throw {A} (e : Thrown) : M A := fun _ s t => (Throw e, s, t).

(** A state setter applied to the live state. *)
Definition update (f : St -> St) : M unit := fun _ s t => (Normal tt, f s, t).

(** An external effect, recorded in order. *)
Definition emit (e : Ev) : M unit := fun _ s t => (Normal tt, s, t ++ [e]).

(** [await] of an external call whose answer the environment fixes. *)
Definition await {A} (call : Env -> Settled A) : M A :=
  fun env s t =>
    match call env with
    | Fulfilled a => (Normal a, s, t)
    | Rejected e => (Throw e, s, t)
    end.

(** Reading a prop or a global of the page. *)
Definition asks {A} (f : Env -> A) : M A := fun env s t => (Normal (f env), s, t).

Definition when (c : bool) (m : M unit) : M unit :=
  if c then m else ret tt.

(** [try { body } catch (err) { handler err }] *)
Definition tryCatch (body : M unit) (handler : Thrown -> M unit) : M unit :=
  fun env s t =>
    match body env s t with
    | (Throw e, s', t') => handler e env s' t'
    | done => done
    end.

(** [try { body } finally { fin }]: [fin] always runs; an abrupt
    completion of [fin] replaces the one of [body]. *)
Definition tryFinally (body fin : M unit) : M unit :=
  fun env s t =>
    match body env s t with
    | (c, s', t') =>
        match fin env s' t' with
        | (Normal _, s'', t'') => (c, s'', t'')
        | abrupt => abrupt
        end
    end.

(** Calling an async function and awaiting it: [return] ends the callee
    only. *)
Definition call (f : M unit) : M unit :=
  fun env s t =>
    match f env s t with
    | (Return, s', t') => (Normal tt, s', t')
    | done => done
    end.

(** Running an event handler from state [s] with an empty trace. *)
Definition run (f : M unit) (env : Env) (s : St) : Completion unit * St * list Ev :=
  call f env s [].
End Programs.

Arguments M : clear implicits.

#[global] Instance M_ret {Env St Ev} : MRet (M Env St Ev) := @ret Env St Ev.
#[global] Instance M_bind {Env St Ev} : MBind (M Env St Ev) :=
  fun A B k m => bind m k.

End Js.

Import Js.

(* ===================================================================== *)
(** ** The order-status view *)
(* ===================================================================== *)

Module PaymentSuccess.

Inductive Icon : Type := CheckCircle | XCircle | Loader2 | Clock.

(** The display descriptor returned by [getPaymentStatusInfo]. *)
Record StatusInfo : Type := {
  icon : Icon;
  color : string;
  bgColor : string;
  borderColor : string;
  title : string;
  message : string;
  showRefresh : bool
}.

(** The [switch] on [paymentStatus]; the value is a string or [null]
    ([order.payment_status] is cast, not checked, so any string can
    arrive). *)
Definition getPaymentStatusInfo (paymentStatus : option string) : StatusInfo :=
  if strictEq paymentStatus "SUCCESS" then
    {| icon := CheckCircle;
       color := "text-green-500";
       bgColor := "bg-green-50";
       borderColor := "border-green-200";
       title := "Payment Successful!";
       message := "Your payment has been processed successfully.";
       showRefresh := false |}
  else if strictEq paymentStatus "FAILED" then
    {| icon := XCircle;
       color := "text-red-500";
       bgColor := "bg-red-50";
       borderColor := "border-red-200";
       title := "Payment Failed";
       message := "Your payment could not be processed. Please try again.";
       showRefresh := true |}
  else if strictEq paymentStatus "PENDING" || strictEq paymentStatus "PROCESSING" then
    {| icon := Loader2;
       color := "text-yellow-500";
       bgColor := "bg-yellow-50";
       borderColor := "border-yellow-200";
       title := "Payment Processing";
       message := "We're confirming your payment. Please wait...";
       showRefresh := true |}
  else
    {| icon := Clock;
       color := "text-blue-500";
       bgColor := "bg-blue-50";
       borderColor := "border-blue-200";
       title := "Order Confirmed";
       message := "Your order has been placed successfully.";
       showRefresh := false |}.

(** The four presentational categories as the specification words them,
    each with its display descriptor and whether it offers the manual
    refresh control. *)
Inductive Category : Type := Success | Failed | Processing | Unset.

Definition descriptor (c : Category) : StatusInfo :=
  match c with
  | Success =>
      {| icon := CheckCircle; color := "text-green-500"; bgColor := "bg-green-50";
         borderColor := "border-green-200"; title := "Payment Successful!";
         message := "Your payment has been processed successfully.";
         showRefresh := false |}
  | Failed =>
      {| icon := XCircle; color := "text-red-500"; bgColor := "bg-red-50";
         borderColor := "border-red-200"; title := "Payment Failed";
         message := "Your payment could not be processed. Please try again.";
         showRefresh := true |}
  | Processing =>
      {| icon := Loader2; color := "text-yellow-500"; bgColor := "bg-yellow-50";
         borderColor := "border-yellow-200"; title := "Payment Processing";
         message := "We're confirming your payment. Please wait...";
         showRefresh := true |}
  | Unset =>
      {| icon := Clock; color := "text-blue-500"; bgColor := "bg-blue-50";
         borderColor := "border-blue-200"; title := "Order Confirmed";
         message := "Your order has been placed successfully.";
         showRefresh := false |}
  end.

Definition refreshOffered (c : Category) : bool :=
  match c with
  | Failed | Processing => true
  | Success | Unset => false
  end.

(** An order line as the view reads it ([items: any[]]); a missing
    [preparation_time] is [None]. *)
Record Item : Type := {
  dish_name : string;
  quantity : Z;
  preparation_time : option Z
}.

(** [order.items.reduce((max, item) =>
       Math.max(max, item.preparation_time || 0), 0)] *)
Definition estimatedTime (items : list Item) : Z :=
  fold_left (fun max item => Z.max max (orZero (preparation_time item))) items 0.

(** The preparation times of the items, a missing one counted as 0. *)
Definition preparationTimes (items : list Item) : list Z :=
  map (fun item => orZero (preparation_time item)) items.

(** The maximum of a list of numbers, 0 for the empty list: the estimate
    as the specification words it. *)
Definition maximum (l : list Z) : Z :=
  match l with
  | [] => 0
  | x :: rest => fold_left Z.max rest x
  end.

(** *** Loading the order *)

Record Restaurant : Type := {
  restaurant_name : string;
  slug : string
}.

(** A row of [orders] joined with its restaurant, as the query returns
    it.  Amounts of money are only formatted for display and are left
    out. *)
Record OrderRow : Type := {
  row_id : string;
  row_customer_name : string;
  row_table_number : string;
  row_items : list Item;
  row_payment_status : option string;
  row_status : string;
  row_user_id : option string;
  restaurants : Restaurant
}.

Record Order : Type := {
  id : string;
  customer_name : string;
  table_number : string;
  items : list Item;
  payment_status : option string;
  status : string;
  user_id : option string;
  restaurant : Restaurant
}.

(** [{ ...data, restaurant: data.restaurants }] *)
Definition orderOfRow (data : OrderRow) : Order :=
  {| id := row_id data;
     customer_name := row_customer_name data;
     table_number := row_table_number data;
     items := row_items data;
     payment_status := row_payment_status data;
     status := row_status data;
     user_id := row_user_id data;
     restaurant := restaurants data |}.

Record Invoice : Type := {
  invoice_id : string;
  invoice_number : string
}.

(** [{ data, error }] of the data-query interface. *)
Record QueryResult : Type := {
  data : option OrderRow;
  query_error : option Thrown
}.

(** The body of an invoice response and the response itself. *)
Record InvoiceResult : Type := {
  success : bool;
  result_invoice : option Invoice
}.

Record Response : Type := {
  ok : bool;
  json : Settled InvoiceResult
}.

(** The external services: the order query by identifier and [fetch]
    by URL. *)
Record Backend : Type := {
  selectOrder : option string -> Settled QueryResult;
  fetch : string -> Settled Response
}.

Inductive Event : Type :=
| EvSelectOrder (orderId : option string)
| EvFetch (url : string)
| EvConsoleError (label : string).

Record State : Type := {
  order : option Order;
  invoice : option Invoice;
  loading : bool;
  error : option string;
  refreshing : bool;
  loadingInvoice : bool
}.

(** The [useState] initial values. *)
Definition initial : State :=
  {| order := None; invoice := None; loading := true; error := None;
     refreshing := false; loadingInvoice := false |}.

Definition setOrder (v : option Order) (s : State) : State :=
  {| order := v; invoice := invoice s; loading := loading s; error := error s;
     refreshing := refreshing s; loadingInvoice := loadingInvoice s |}.
Definition setInvoice (v : option Invoice) (s : State) : State :=
  {| order := order s; invoice := v; loading := loading s; error := error s;
     refreshing := refreshing s; loadingInvoice := loadingInvoice s |}.
Definition setLoading (v : bool) (s : State) : State :=
  {| order := order s; invoice := invoice s; loading := v; error := error s;
     refreshing := refreshing s; loadingInvoice := loadingInvoice s |}.
Definition setError (v : option string) (s : State) : State :=
  {| order := order s; invoice := invoice s; loading := loading s; error := v;
     refreshing := refreshing s; loadingInvoice := loadingInvoice s |}.
Definition setRefreshing (v : bool) (s : State) : State :=
  {| order := order s; invoice := invoice s; loading := loading s; error := error s;
     refreshing := v; loadingInvoice := loadingInvoice s |}.

Abbreviation Prog := (M Backend State Event).

Definition invoiceUrl (orderId : string) : string :=
  "/api/invoice?order_id=" +:+ orderId.

Definition fetchInvoice (orderId : string) : Prog unit :=
  tryCatch
    (emit (EvFetch (invoiceUrl orderId));;
     response ← await (fun env => fetch env (invoiceUrl orderId));
     if ok response then
       result ← await (fun _ => json response);
       match success result, result_invoice result with
       | true, Some inv => update (setInvoice (Some inv))
       | _, _ => mret tt
       end
     else mret tt)
    (fun err => emit (EvConsoleError "Error fetching invoice:")).

Definition fetchOrder (orderId : option string) : Prog unit :=
  tryCatch
    (emit (EvSelectOrder orderId);;
     res ← await (fun env => selectOrder env orderId);
     match query_error res with
     | Some e => throw e
     | None => mret tt
     end;;
     match data res with
     | None =>
         (* [data.restaurants] on [null] *)
         throw (JsError "Cannot read properties of null (reading 'restaurants')")
     | Some row =>
         update (setOrder (Some (orderOfRow row)));;
         (* If payment is successful, try to fetch invoice *)
         when (strictEq (row_payment_status row) "SUCCESS")
              (call (fetchInvoice (row_id row)))
     end)
    (fun err =>
       emit (EvConsoleError "Error fetching order:");;
       update (setError (Some "Failed to load order details"))).

(** The effect on [orderId]. *)
Definition mountEffect (orderId : option string) : Prog unit :=
  if negb (truthyOpt orderId) then
    update (setError (Some "Order ID not found"));;
    update (setLoading false);;
    jsReturn
  else
    (* loadOrder *)
    call (fetchOrder orderId);;
    update (setLoading false).

Definition handleRefresh (orderId : option string) : Prog unit :=
  update (setRefreshing true);;
  call (fetchOrder orderId);;
  update (setRefreshing false).

(** What the component returns. *)
Inductive Screen : Type :=
| LoadingScreen
| NotFoundScreen
| StatusScreen (o : Order).

Definition render (s : State) : Screen :=
  if loading s then LoadingScreen
  else if truthyOpt (error s) then NotFoundScreen
  else match order s with
       | None => NotFoundScreen
       | Some o => StatusScreen o
       end.

(** The invoice lookups of a trace: the requests to the invoice
    endpoint. *)
Definition isInvoiceLookup (e : Event) : bool :=
  match e with
  | EvFetch url => String.prefix "/api/invoice" url
  | _ => false
  end.

Definition invoiceLookups (t : list Event) : list Event :=
  List.filter isInvoiceLookup t.

(** The row of a successful order load: the query is fulfilled with a
    row and without an error. *)
Definition loadedOrder (env : Backend) (orderId : option string) : option OrderRow :=
  match selectOrder env orderId with
  | Fulfilled res =>
      match query_error res with
      | Some _ => None
      | None => data res
      end
  | Rejected _ => None
  end.

End PaymentSuccess.

(* ===================================================================== *)
(** ** The checkout dialog *)
(* ===================================================================== *)

Module Checkout.

Inductive AuthStep : Type :=
| StepEmail
| StepWaiting
| StepDetails
| StepAuthenticated.

Record CustomerInfo : Type := {
  name : string;
  phone : string;
  tableNumber : string;
  info_email : string
}.

(** The session provider's user: [email] is optional. *)
Record User : Type := {
  user_id : string;
  user_email : option string;
  created_at : string
}.

Record Session : Type := { session_user : User }.

Record AuthError : Type := { message : string }.

Record Restaurant : Type := {
  restaurant_id : string;
  restaurant_name : string;
  restaurant_slug : string
}.

(** The argument of [signInWithOtp]. *)
Record OtpRequest : Type := {
  otp_email : string;
  shouldCreateUser : bool;
  emailRedirectTo : string;
  data_restaurant_id : string;
  data_restaurant_name : string
}.

(** [window.location]: origin, path and the [email] query parameter. *)
Record Location : Type := {
  origin : string;
  pathname : string;
  emailParam : option string
}.

(** The props and globals a handler reads and the answers of the session
    provider during one handler run. *)
Record Env : Type := {
  restaurant : Restaurant;
  location : Location;
  getSession : Settled (option Session);
  getUser : Settled (option User);
  signInWithOtp : OtpRequest -> Settled (option AuthError)
}.

Inductive Event : Type :=
| EvPreventDefault
| EvGetSession
| EvGetUser
| EvSignInWithOtp (req : OtpRequest)
| EvPlaceOrder (customerInfo : CustomerInfo) (user : option User)
| EvStripEmailParam
| EvConsoleLog (label : string)
| EvConsoleError (label : string).

Record State : Type := {
  authStep : AuthStep;
  email : string;
  magicLinkSent : bool;
  customerInfo : CustomerInfo;
  user : option User;
  loading : bool;
  error : option string;
  resendCooldown : Z
}.

Definition emptyInfo : CustomerInfo :=
  {| name := ""; phone := ""; tableNumber := ""; info_email := "" |}.

(** The [useState] initial values. *)
Definition initial : State :=
  {| authStep := StepEmail; email := ""; magicLinkSent := false;
     customerInfo := emptyInfo; user := None; loading := false;
     error := None; resendCooldown := 0 |}.

Definition setAuthStep (v : AuthStep) (s : State) : State :=
  {| authStep := v; email := email s; magicLinkSent := magicLinkSent s;
     customerInfo := customerInfo s; user := user s; loading := loading s;
     error := error s; resendCooldown := resendCooldown s |}.
Definition setEmail (v : string) (s : State) : State :=
  {| authStep := authStep s; email := v; magicLinkSent := magicLinkSent s;
     customerInfo := customerInfo s; user := user s; loading := loading s;
     error := error s; resendCooldown := resendCooldown s |}.
Definition setMagicLinkSent (v : bool) (s : State) : State :=
  {| authStep := authStep s; email := email s; magicLinkSent := v;
     customerInfo := customerInfo s; user := user s; loading := loading s;
     error := error s; resendCooldown := resendCooldown s |}.
(** [setCustomerInfo] takes an updater of the previous value. *)
Definition setCustomerInfo (f : CustomerInfo -> CustomerInfo) (s : State) : State :=
  {| authStep := authStep s; email := email s; magicLinkSent := magicLinkSent s;
     customerInfo := f (customerInfo s); user := user s; loading := loading s;
     error := error s; resendCooldown := resendCooldown s |}.
Definition setUser (v : option User) (s : State) : State :=
  {| authStep := authStep s; email := email s; magicLinkSent := magicLinkSent s;
     customerInfo := customerInfo s; user := v; loading := loading s;
     error := error s; resendCooldown := resendCooldown s |}.
Definition setLoading (v : bool) (s : State) : State :=
  {| authStep := authStep s; email := email s; magicLinkSent := magicLinkSent s;
     customerInfo := customerInfo s; user := user s; loading := v;
     error := error s; resendCooldown := resendCooldown s |}.
Definition setError (v : option string) (s : State) : State :=
  {| authStep := authStep s; email := email s; magicLinkSent := magicLinkSent s;
     customerInfo := customerInfo s; user := user s; loading := loading s;
     error := v; resendCooldown := resendCooldown s |}.
Definition setResendCooldown (v : Z) (s : State) : State :=
  {| authStep := authStep s; email := email s; magicLinkSent := magicLinkSent s;
     customerInfo := customerInfo s; user := user s; loading := loading s;
     error := error s; resendCooldown := v |}.

(** [{ ...prev, field: v }] *)
Definition withName (v : string) (prev : CustomerInfo) : CustomerInfo :=
  {| name := v; phone := phone prev; tableNumber := tableNumber prev;
     info_email := info_email prev |}.
Definition withPhone (v : string) (prev : CustomerInfo) : CustomerInfo :=
  {| name := name prev; phone := v; tableNumber := tableNumber prev;
     info_email := info_email prev |}.
Definition withTableNumber (v : string) (prev : CustomerInfo) : CustomerInfo :=
  {| name := name prev; phone := phone prev; tableNumber := v;
     info_email := info_email prev |}.
Definition withEmail (v : string) (prev : CustomerInfo) : CustomerInfo :=
  {| name := name prev; phone := phone prev; tableNumber := tableNumber prev;
     info_email := v |}.

Abbreviation Prog := (M Env State Event).

(** *** The effect that checks the session and the URL on mount *)

Definition checkAuthState : Prog unit :=
  (* Check if there's an email parameter in URL *)
  emailFromUrl ← asks (fun env => emailParam (location env));
  match emailFromUrl with
  | Some e => when (truthy e) (update (setEmail e);; update (setAuthStep StepWaiting))
  | None => mret tt
  end;;
  (* Check current session *)
  emit EvGetSession;;
  session ← await getSession;
  match session with
  | Some sess =>
      update (setUser (Some (session_user sess)));;
      update (setCustomerInfo
                (withEmail (orElse (user_email (session_user sess))
                                   (orElse emailFromUrl ""))));;
      update (setAuthStep StepDetails)
  | None => mret tt
  end.

(** *** The callback given to [onAuthStateChange] *)

Definition onAuthEvent (event : string) (session : option Session) : Prog unit :=
  emit (EvConsoleLog "Auth state changed:");;
  match String.eqb event "SIGNED_IN", session with
  | true, Some sess =>
      update (setUser (Some (session_user sess)));;
      update (setCustomerInfo (withEmail (orElse (user_email (session_user sess)) "")));;
      update (setAuthStep StepDetails);;
      (* Clean up URL parameters after successful auth *)
      emit EvStripEmailParam
  | _, _ =>
      when (String.eqb event "SIGNED_OUT")
           (update (setUser None);; update (setAuthStep StepEmail))
  end.

(** *** The handlers

    A handler is a closure of one render: it reads [email],
    [resendCooldown], [customerInfo] and [user] from the rendered state
    [r], while its setters act on the live state. *)

Definition redirectTo (loc : Location) (email : string) : string :=
  origin loc +:+ pathname loc +:+ "?email=" +:+ encodeURIComponent email.

(** The request built by both [signInWithOtp] calls; they differ in the
    [email] field only. *)
Definition otpRequest (env : Env) (to email : string) : OtpRequest :=
  {| otp_email := to;
     shouldCreateUser := true;
     emailRedirectTo := redirectTo (location env) email;
     data_restaurant_id := restaurant_id (restaurant env);
     data_restaurant_name := restaurant_name (restaurant env) |}.

Definition handleEmailSubmit (r : State) : Prog unit :=
  emit EvPreventDefault;;
  (if negb (truthy (trim (email r))) then jsReturn else mret tt);;
  update (setLoading true);;
  update (setError None);;
  tryFinally
    (tryCatch
       ((* Check if user already exists and is signed in *)
        emit EvGetUser;;
        currentUser ← await getUser;
        match currentUser with
        | Some u =>
            if strictEq (user_email u) (email r) then
              (* User is already authenticated with this email *)
              update (setUser (Some u));;
              update (setCustomerInfo (withEmail (email r)));;
              update (setAuthStep StepDetails);;
              jsReturn
            else mret tt
        | None => mret tt
        end;;
        (* Send magic link to email *)
        req ← asks (fun env => otpRequest env (trim (email r)) (email r));
        emit (EvSignInWithOtp req);;
        magicLinkError ← await (fun env => signInWithOtp env req);
        match magicLinkError with
        | Some e => throw (JsError (message e))
        | None => mret tt
        end;;
        update (setMagicLinkSent true);;
        update (setAuthStep StepWaiting);;
        update (setResendCooldown 60))
       (fun err =>
          emit (EvConsoleError "Email submission error:");;
          update (setError (Some (messageOr err "Failed to send magic link")))))
    (update (setLoading false)).

Definition handleResendMagicLink (r : State) : Prog unit :=
  (if resendCooldown r >? 0 then jsReturn else mret tt);;
  update (setLoading true);;
  update (setError None);;
  tryFinally
    (tryCatch
       (req ← asks (fun env => otpRequest env (email r) (email r));
        emit (EvSignInWithOtp req);;
        magicLinkError ← await (fun env => signInWithOtp env req);
        match magicLinkError with
        | Some e => throw (JsError (message e))
        | None => mret tt
        end;;
        update (setResendCooldown 60))
       (fun err =>
          emit (EvConsoleError "Resend magic link error:");;
          update (setError (Some (messageOr err "Failed to resend magic link")))))
    (update (setLoading false)).

Definition handleDetailsSubmit (r : State) : Prog unit :=
  emit EvPreventDefault;;
  (if negb (truthy (trim (name (customerInfo r))))
      || negb (truthy (trim (phone (customerInfo r))))
      || negb (truthy (trim (tableNumber (customerInfo r))))
   then
     update (setError (Some "Please fill in all required fields"));;
     jsReturn
   else mret tt);;
  (* Proceed with order placement *)
  emit (EvPlaceOrder (customerInfo r) (user r)).

Definition handleBack (r : State) : Prog unit :=
  match authStep r with
  | StepWaiting =>
      update (setAuthStep StepEmail);;
      update (setMagicLinkSent false);;
      update (setError None)
  | StepDetails =>
      update (setAuthStep StepEmail);;
      update (setCustomerInfo (fun _ => emptyInfo));;
      update (setError None)
  | _ => mret tt
  end.

(** The requests to the magic-link operation in a trace. *)
Definition isMagicLink (e : Event) : bool :=
  match e with EvSignInWithOtp _ => true | _ => false end.

Definition magicLinks (t : list Event) : list Event := List.filter isMagicLink t.

(** The calls of [onPlaceOrder] in a trace. *)
Definition isPlacement (e : Event) : bool :=
  match e with EvPlaceOrder _ _ => true | _ => false end.

Definition placements (t : list Event) : list Event := List.filter isPlacement t.

(** The message of a failed magic-link operation: the message of the
    error it returned, or what the [catch] makes of a rejection; [None]
    when the operation succeeded. *)
Definition failureMessage (answer : Settled (option AuthError)) (fallback : string)
  : option string :=
  match answer with
  | Fulfilled None => None
  | Fulfilled (Some e) => Some (message e)
  | Rejected err => Some (messageOr err fallback)
  end.

(** *** The session-change subscription *)

Definition Callback : Type := string -> option Session -> Prog unit.

Record Subscription : Type := { sub_id : nat }.

(** Modelled from the spec: the session provider is outside the
    repository; its subscribe-to-auth-changes operation is an observer
    registration that returns a disposer.  The provider keeps the
    registered callbacks by subscription identifier, [onAuthStateChange]
    registers a callback under an unused identifier and [unsubscribe]
    removes the entry of the subscription. *)
Record AuthClient : Type := { listeners : gmap nat Callback }.

(** Modelled from the spec: registering an observer; the subscription
    returned names the new entry. *)
Definition onAuthStateChange (callback : Callback) (client : AuthClient)
  : Subscription * AuthClient :=
  let id := fresh (dom (listeners client)) in
  ({| sub_id := id |}, {| listeners := <[id := callback]> (listeners client) |}).

(** Modelled from the spec: the disposer of a subscription. *)
Definition unsubscribe (subscription : Subscription) (client : AuthClient) : AuthClient :=
  {| listeners := delete (sub_id subscription) (listeners client) |}.

(** What an effect hands back to React: the function to run on teardown. *)
Definition Cleanup : Type := AuthClient -> AuthClient.

(** The effect that listens for auth state changes:
    [return () => subscription.unsubscribe()]. *)
Definition subscriptionEffect (client : AuthClient) : Subscription * Cleanup * AuthClient :=
  let '(subscription, client') := onAuthStateChange onAuthEvent client in
  (subscription, fun c => unsubscribe subscription c, client').

(** *** The resend cooldown timer *)

(** The effect on [resendCooldown]: while the rendered cooldown is
    positive it leaves one pending one-second timer, which captures that
    value; its cleanup clears the timer. *)
Definition cooldownEffect (resendCooldown : Z) : option Z :=
  if resendCooldown >? 0 then Some resendCooldown else None.

(** The pending timer after a render: the effect runs again, after its
    cleanup, only when [resendCooldown] changed. *)
Definition commitTimer (pending : option Z) (before after : Z) : option Z :=
  if before =? after then pending else cooldownEffect after.

(** *** The mounted component *)

Record Mounted : Type := {
  state : State;
  subscription : Subscription;
  cleanup : Cleanup;
  pendingTimer : option Z
}.

Record System : Type := {
  client : AuthClient;
  component : Mounted
}.

(** Mounting runs the three effects. *)
Definition mount (env : Env) (before : AuthClient) : System * list Event :=
  let '(_, s, t) := run checkAuthState env initial in
  let '(sub, clean, registered) := subscriptionEffect before in
  ({| client := registered;
      component := {| state := s; subscription := sub; cleanup := clean;
                      pendingTimer := commitTimer (cooldownEffect (resendCooldown initial))
                                                  (resendCooldown initial)
                                                  (resendCooldown s) |} |},
   t).

(** Unmounting runs the cleanups: the pending timer is cleared and the
    cleanup of the subscription effect acts on the provider. *)
Definition unmount (sys : System) : AuthClient :=
  cleanup (component sys) (client sys).

(** What can happen to a mounted component. *)
Inductive Action : Type :=
| ChangeEmail (v : string)
| ChangeName (v : string)
| ChangePhone (v : string)
| ChangeTableNumber (v : string)
| SubmitEmail
| Resend
| SubmitDetails
| Back
| AuthChange (event : string) (session : option Session)
| TimerFires.

Definition react (sys : System) (a : Action) : Prog unit :=
  let r := state (component sys) in
  match a with
  | ChangeEmail v => update (setEmail v)
  | ChangeName v => update (setCustomerInfo (withName v))
  | ChangePhone v => update (setCustomerInfo (withPhone v))
  | ChangeTableNumber v => update (setCustomerInfo (withTableNumber v))
  | SubmitEmail => handleEmailSubmit r
  | Resend => handleResendMagicLink r
  | SubmitDetails => handleDetailsSubmit r
  | Back => handleBack r
  | AuthChange event session =>
      (* the provider calls the callback registered for the subscription *)
      match listeners (client sys) !! sub_id (subscription (component sys)) with
      | Some callback => callback event session
      | None => mret tt
      end
  | TimerFires =>
      (* [() => setResendCooldown(resendCooldown - 1)] of the pending timer *)
      match pendingTimer (component sys) with
      | Some captured => update (setResendCooldown (captured - 1))
      | None => mret tt
      end
  end.

Definition step (env : Env) (sys : System) (a : Action) : System * list Event :=
  let m := component sys in
  let '(_, s, t) := run (react sys a) env (state m) in
  let pending := match a with TimerFires => None | _ => pendingTimer m end in
  ({| client := client sys;
      component := {| state := s; subscription := subscription m; cleanup := cleanup m;
                      pendingTimer := commitTimer pending (resendCooldown (state m))
                                                  (resendCooldown s) |} |},
   t).

(** The systems a component can be in, from a mount on the provider
    [before]. *)
Inductive Reachable (before : AuthClient) : System -> Prop :=
| reach_mount env : Reachable before (mount env before).1
| reach_step env sys a : Reachable before sys -> Reachable before (step env sys a).1.

Definition cooldownOf (sys : System) : Z := resendCooldown (state (component sys)).

(** What holds of every reachable system: the pending timer is the one the
    cooldown effect left for the current cooldown, the cooldown is between
    0 and 60, and the provider holds the component's callback under the
    subscription of the mount, next to the listeners it had before. *)
Record Invariant (before : AuthClient) (sys : System) : Prop := {
  inv_timer : pendingTimer (component sys) = cooldownEffect (cooldownOf sys);
  inv_range : 0 <= cooldownOf sys <= 60;
  inv_cleanup : cleanup (component sys) = unsubscribe (subscription (component sys));
  inv_fresh : listeners before !! sub_id (subscription (component sys)) = None;
  inv_client :
    listeners (client sys)
    = <[sub_id (subscription (component sys)) := onAuthEvent]> (listeners before)
}.

End Checkout.

(* ===================================================================== *)
(** ** The dashboards *)
(* ===================================================================== *)

Module Dashboard.

Record Order : Type := {
  id : string;
  table_number : string;
  payment_status : option string;
  status : string
}.

Record Invoice : Type := {
  invoice_id : string;
  order_id : string;
  invoice_number : string;
  invoice_payment_status : string
}.

(** *** The per-restaurant dashboard *)

(** [invoices.find(invoice => invoice.order_id === orderId)] *)
Definition getInvoiceForOrder (invoices : list Invoice) (orderId : string) : option Invoice :=
  List.find (fun invoice => String.eqb (order_id invoice) orderId) invoices.

(** One card of [orders.map(...)]: the order and the invoice joined to
    it, whose actions are shown when there is one. *)
Record OrderCard : Type := {
  card_key : string;
  card_order : Order;
  card_invoice : option Invoice
}.

Definition orderCards (orders : list Order) (invoices : list Invoice) : list OrderCard :=
  map (fun order =>
         {| card_key := id order;
            card_order := order;
            card_invoice := getInvoiceForOrder invoices (id order) |})
      orders.

(** *** The global dashboard *)

(** One table row of [invoices.map(...)]. *)
Record InvoiceRow : Type := {
  row_key : string;
  row_invoice : Invoice
}.

Definition invoiceRows (invoices : list Invoice) : list InvoiceRow :=
  map (fun invoice => {| row_key := invoice_id invoice; row_invoice := invoice |}) invoices.

(** *** The invoice entries on display *)

Definition cardInvoices (cards : list OrderCard) : list Invoice :=
  omap card_invoice cards.

Definition rowInvoices (rows : list InvoiceRow) : list Invoice :=
  map row_invoice rows.

(** The displayed invoice entries associated with an order identifier. *)
Definition entriesFor (orderId : string) (shown : list Invoice) : list Invoice :=
  List.filter (fun invoice => String.eqb (order_id invoice) orderId) shown.

End Dashboard.

(* ===================================================================== *)
(** ** Sample data *)
(* ===================================================================== *)

Module Examples.
Import Checkout.

Definition spiceHut : Restaurant :=
  {| restaurant_id := "r-17"; restaurant_name := "Spice Hut"; restaurant_slug := "spice-hut" |}.

Definition menuPage : Location :=
  {| origin := "https://order.example"; pathname := "/spice-hut/menu"; emailParam := None |}.

(** The menu page reached through a magic-link redirect. *)
Definition redirectedPage : Location :=
  {| origin := "https://order.example"; pathname := "/spice-hut/menu";
     emailParam := Some "asha@example.com" |}.

Definition asha : User :=
  {| user_id := "u-1"; user_email := Some "asha@example.com"; created_at := "2026-01-05" |}.

(** A user signed in by phone: the provider reports an empty email. *)
Definition phoneUser : User :=
  {| user_id := "u-2"; user_email := Some ""; created_at := "2026-02-11" |}.

(** No session, and every magic-link request succeeds. *)
Definition signedOut : Env :=
  {| restaurant := spiceHut; location := menuPage;
     getSession := Fulfilled None; getUser := Fulfilled None;
     signInWithOtp := fun _ => Fulfilled None |}.

(** No session, and the provider refuses every magic-link request. *)
Definition rateLimited : Env :=
  {| restaurant := spiceHut; location := menuPage;
     getSession := Fulfilled None; getUser := Fulfilled None;
     signInWithOtp := fun _ => Fulfilled (Some {| message := "Email rate limit exceeded" |}) |}.

Definition signedInAs (u : User) : Env :=
  {| restaurant := spiceHut; location := menuPage;
     getSession := Fulfilled (Some {| session_user := u |}); getUser := Fulfilled (Some u);
     signInWithOtp := fun _ => Fulfilled None |}.

(** Back from the magic-link redirect, before the session is there. *)
Definition redirected : Env :=
  {| restaurant := spiceHut; location := redirectedPage;
     getSession := Fulfilled None; getUser := Fulfilled None;
     signInWithOtp := fun _ => Fulfilled None |}.

(** The dialog after the customer typed an email. *)
Definition typedEmail : State := setEmail "asha@example.com" initial.

(** The waiting step with the cooldown running. *)
Definition waitingFor (cooldown : Z) : State :=
  setResendCooldown cooldown (setAuthStep StepWaiting (setMagicLinkSent true typedEmail)).

(** The details step with the given draft. *)
Definition detailsWith (info : CustomerInfo) : State :=
  setCustomerInfo (fun _ => info) (setUser (Some asha) (setAuthStep StepDetails typedEmail)).

Definition filledInfo : CustomerInfo :=
  {| name := "Asha"; phone := "98200 00000"; tableNumber := "12";
     info_email := "asha@example.com" |}.

Definition noPhoneInfo : CustomerInfo :=
  {| name := "Asha"; phone := "  "; tableNumber := "12"; info_email := "asha@example.com" |}.

(** A provider with no listener yet. *)
Definition freshClient : AuthClient := {| listeners := ∅ |}.

(** The dialog as mounted for a customer without a session. *)
Definition mounted : System := (mount signedOut freshClient).1.

(** The same dialog after the customer typed an email and submitted it:
    the waiting step, with the cooldown at 60. *)
Definition waitingSystem : System :=
  (step signedOut (step signedOut mounted (ChangeEmail "asha@example.com")).1 SubmitEmail).1.

(** The dialog mounted after a magic-link redirect: the waiting step, with
    the cooldown at 0. *)
Definition redirectedSystem : System := (mount redirected freshClient).1.

(** Two orders and their invoices, as the dashboards receive them. *)
Definition dinner : Dashboard.Order :=
  {| Dashboard.id := "o-1"; Dashboard.table_number := "12";
     Dashboard.payment_status := Some "SUCCESS"; Dashboard.status := "confirmed" |}.

Definition lunch : Dashboard.Order :=
  {| Dashboard.id := "o-2"; Dashboard.table_number := "4";
     Dashboard.payment_status := Some "PENDING"; Dashboard.status := "pending" |}.

Definition dinnerInvoice : Dashboard.Invoice :=
  {| Dashboard.invoice_id := "i-1"; Dashboard.order_id := "o-1";
     Dashboard.invoice_number := "INV-0001"; Dashboard.invoice_payment_status := "paid" |}.

(** A second invoice created for the same order. *)
Definition dinnerInvoiceAgain : Dashboard.Invoice :=
  {| Dashboard.invoice_id := "i-2"; Dashboard.order_id := "o-1";
     Dashboard.invoice_number := "INV-0002"; Dashboard.invoice_payment_status := "paid" |}.

Definition lunchInvoice : Dashboard.Invoice :=
  {| Dashboard.invoice_id := "i-3"; Dashboard.order_id := "o-2";
     Dashboard.invoice_number := "INV-0003"; Dashboard.invoice_payment_status := "pending" |}.

End Examples.

(* ===================================================================== *)
(** ** The order-status view: the status screen and invoice generation *)
(* ===================================================================== *)

Module StatusPage.
Import PaymentSuccess.

(** *** String helpers of the screen *)

(** [s.slice(0, n)]: the first [n] code units, all of [s] when it is
    shorter. *)
Fixpoint sliceTo (n : nat) (s : string) : string :=
  match n, s with
  | O, _ => EmptyString
  | S _, EmptyString => EmptyString
  | S k, String c rest => String c (sliceTo k rest)
  end.

Fixpoint dropUnits (n : nat) (s : string) : string :=
  match n, s with
  | O, _ => s
  | S _, EmptyString => EmptyString
  | S k, String _ rest => dropUnits k rest
  end.

(** [s.replace(pattern, replacement)] with a string pattern: the first
    occurrence only. *)
Fixpoint replaceFirst (pattern replacement s : string) : string :=
  if String.prefix pattern s then replacement +:+ dropUnits (String.length pattern) s
  else match s with
       | EmptyString => EmptyString
       | String c rest => String c (replaceFirst pattern replacement rest)
       end.

(** *** The status screen *)

(** The invoice card: the held invoice with the address its View button
    opens, or the Generate button and whether it is disabled. *)
Inductive InvoicePanel : Type :=
| InvoiceActions (held : Invoice) (viewUrl : string)
| GenerateButton (disabled : bool).

(** What the screen shows of a loaded order.  [view_refresh] is the
    refresh button, when shown, with its [disabled] flag; [view_estimate]
    and [view_panel] are the two cards of a paid order. *)
Record StatusView : Type := {
  view_info : StatusInfo;
  view_spin : bool;
  view_refresh : option bool;
  view_badge : string;
  view_dot : string;
  view_orderId : string;
  view_estimate : option Z;
  view_panel : option InvoicePanel;
  view_dashboardButton : bool;
  view_menuLink : string
}.

Definition statusView (s : State) (o : Order) : StatusView :=
  let statusInfo := getPaymentStatusInfo (payment_status o) in
  {| view_info := statusInfo;
     view_spin := strictEq (payment_status o) "PROCESSING"
                  || strictEq (payment_status o) "PENDING";
     view_refresh := if showRefresh statusInfo then Some (refreshing s) else None;
     view_badge := match payment_status o with
                   | Some status => if truthy status then "Payment " +:+ status
                                    else "Order Placed"
                   | None => "Order Placed"
                   end;
     view_dot := replaceFirst "text-" "bg-" (color statusInfo);
     view_orderId := sliceTo 8 (id o) +:+ "...";
     view_estimate := if strictEq (payment_status o) "SUCCESS"
                      then Some (estimatedTime (items o)) else None;
     view_panel := if strictEq (payment_status o) "SUCCESS"
                   then Some match invoice s with
                             | Some held =>
                                 InvoiceActions held
                                   ("/api/invoice/" +:+ invoice_id held +:+ "?format=html")
                             | None => GenerateButton (loadingInvoice s)
                             end
                   else None;
     view_dashboardButton := truthyOpt (user_id o);
     view_menuLink := "/" +:+ slug (restaurant o) +:+ "/menu" |}.

(** *** Generating the invoice *)

Definition setLoadingInvoice (v : bool) (s : State) : State :=
  {| order := order s; invoice := invoice s; loading := loading s; error := error s;
     refreshing := refreshing s; loadingInvoice := v |}.

(** [fetch(url, { method: 'POST', ... })]: the answer by address and by the
    [order_id] of the JSON body. *)
Record InvoiceApi : Type := {
  post : string -> string -> Settled Response
}.

(** The request is recorded with the object it serialises, [{ order_id }];
    its content type is always JSON. *)
Inductive GenerateEvent : Type :=
| EvPost (url : string) (order_id : string)
| EvGenerateError (label : string).

(** [generateInvoice] of the render [r]. *)
Definition generateInvoice (r : State) : M InvoiceApi State GenerateEvent unit :=
  match order r with
  | None => jsReturn
  | Some o =>
      tryFinally
        (tryCatch
           (update (setLoadingInvoice true);;
            emit (EvPost "/api/invoice" (id o));;
            response ← await (fun env => post env "/api/invoice" (id o));
            if ok response then
              result ← await (fun _ => json response);
              match success result, result_invoice result with
              | true, Some inv => update (setInvoice (Some inv))
              | _, _ => mret tt
              end
            else mret tt)
           (fun err => emit (EvGenerateError "Error generating invoice:")))
        (update (setLoadingInvoice false))
  end.

(** The invoice a response delivers: the response is ok, its body parses,
    reports success and holds an invoice. *)
Definition deliveredInvoice (answer : Settled Response) : option Invoice :=
  match answer with
  | Fulfilled response =>
      if ok response then
        match json response with
        | Fulfilled result => if success result then result_invoice result else None
        | Rejected _ => None
        end
      else None
  | Rejected _ => None
  end.

(** The state a load of the order leaves, by the answers of the backend:
    the error of a failed load; else the loaded order and, for a paid
    order, the invoice its lookup delivers. *)
Definition afterLoad (env : Backend) (orderId : option string) (s : State) : State :=
  match loadedOrder env orderId with
  | None => setError (Some "Failed to load order details") s
  | Some row =>
      let loaded := setOrder (Some (orderOfRow row)) s in
      if strictEq (row_payment_status row) "SUCCESS" then
        match deliveredInvoice (fetch env (invoiceUrl (row_id row))) with
        | Some inv => setInvoice (Some inv) loaded
        | None => loaded
        end
      else loaded
  end.

End StatusPage.

(* ===================================================================== *)
(** ** The checkout dialog: what it renders *)
(* ===================================================================== *)

Module CheckoutView.
Import Checkout.

(** The heading: one of three texts, none in the 'authenticated' step. *)
Definition heading (s : State) : string :=
  match authStep s with
  | StepEmail => "Verify Email"
  | StepWaiting => "Check Your Email"
  | StepDetails => "Order Details"
  | StepAuthenticated => ""
  end.

(** The back button is rendered in the waiting and details steps. *)
Definition backShown (s : State) : bool :=
  match authStep s with
  | StepWaiting | StepDetails => true
  | _ => false
  end.

(** The [disabled] attributes. *)
Definition emailInputDisabled (s : State) : bool := loading s.
Definition emailSubmitDisabled (s : State) : bool :=
  loading s || negb (truthy (trim (email s))).
Definition resendDisabled (s : State) : bool :=
  (resendCooldown s >? 0) || loading s.
Definition placeOrderDisabled (s : State) : bool := loading s.

(** The text of the resend button. *)
Inductive ResendLabel : Type :=
| Sending
| ResendIn (seconds : Z)
| ResendMagicLink.

Definition resendLabel (s : State) : ResendLabel :=
  if loading s then Sending
  else if resendCooldown s >? 0 then ResendIn (resendCooldown s)
  else ResendMagicLink.

(** The error box of the rendered step: [{error && ...}]. *)
Definition errorBox (s : State) : option string :=
  match authStep s with
  | StepAuthenticated => None
  | _ => match error s with
         | Some text => if truthy text then Some text else None
         | None => None
         end
  end.

(** What the rendered dialog lets happen: a control that is not rendered
    or is disabled does not fire its handler; notifications of the session
    provider and the timer do not depend on the rendering. *)
Definition offered (s : State) (a : Action) : bool :=
  match a with
  | ChangeEmail _ =>
      match authStep s with StepEmail => negb (emailInputDisabled s) | _ => false end
  | ChangeName _ | ChangePhone _ | ChangeTableNumber _ =>
      match authStep s with StepDetails => true | _ => false end
  | SubmitEmail =>
      match authStep s with StepEmail => negb (emailSubmitDisabled s) | _ => false end
  | Resend =>
      match authStep s with StepWaiting => negb (resendDisabled s) | _ => false end
  | SubmitDetails =>
      match authStep s with StepDetails => negb (placeOrderDisabled s) | _ => false end
  | Back => backShown s
  | AuthChange _ _ => true
  | TimerFires => true
  end.

(** [n] timer events in a row. *)
Fixpoint ticks (n : nat) (env : Env) (sys : System) : System :=
  match n with
  | O => sys
  | S k => ticks k env (step env sys TimerFires).1
  end.

(** A run of the dialog: the actions with the provider's answers during
    each, and the trace of all external effects. *)
Fixpoint play (sys : System) (script : list (Env * Action)) : System * list Event :=
  match script with
  | [] => (sys, [])
  | (env, a) :: rest =>
      let '(sys', t) := step env sys a in
      let '(final, t') := play sys' rest in
      (final, t ++ t')
  end.

(** A script every action of which is offered when its turn comes. *)
Fixpoint offeredAll (sys : System) (script : list (Env * Action)) : Prop :=
  match script with
  | [] => True
  | (env, a) :: rest =>
      offered (state (component sys)) a = true /\ offeredAll (step env sys a).1 rest
  end.

(** The dialog at rest: it is not loading, it is not on the
    'authenticated' step, and on the details step it has a user. *)
Definition steady (s : State) : Prop :=
  loading s = false
  /\ authStep s <> StepAuthenticated
  /\ (authStep s = StepDetails -> is_Some (user s)).

(** The email shown in the waiting panel and in the 'Email (Verified)'
    box of the details form: the typed email. *)
Definition shownEmail (s : State) : string := email s.

End CheckoutView.

(* ===================================================================== *)
(** ** Sample runs *)
(* ===================================================================== *)

Module SampleRuns.
Import Checkout.

(** A signed-in customer fills in the details form and places the order. *)
Definition orderScript : list (Env * Action) :=
  [ (Examples.signedInAs Examples.asha, ChangeName "Asha");
    (Examples.signedInAs Examples.asha, ChangePhone "98200 00000");
    (Examples.signedInAs Examples.asha, ChangeTableNumber "12");
    (Examples.signedInAs Examples.asha, SubmitDetails) ].

(** The dialog of a customer who is already signed in. *)
Definition signedInSystem : System :=
  (mount (Examples.signedInAs Examples.asha) Examples.freshClient).1.

(** Back from the magic-link redirect with the session in place. *)
Definition returned : Env :=
  {| restaurant := Examples.spiceHut; location := Examples.redirectedPage;
     getSession := Fulfilled (Some {| session_user := Examples.asha |});
     getUser := Fulfilled (Some Examples.asha);
     signInWithOtp := fun _ => Fulfilled None |}.

(** The dialog mounted after the redirect, with the details filled in. *)
Definition filledSystem : System :=
  (step returned
     (step returned
        (step returned (mount returned Examples.freshClient).1 (ChangeName "Asha")).1
        (ChangePhone "98200 00000")).1
     (ChangeTableNumber "12")).1.

End SampleRuns.

Module SampleOrders.
Import PaymentSuccess.

Definition thali : Item :=
  {| dish_name := "Thali"; quantity := 2; preparation_time := Some 20 |}.

Definition lassi : Item :=
  {| dish_name := "Lassi"; quantity := 1; preparation_time := None |}.

(** A paid order as the query returns it. *)
Definition paidRow : OrderRow :=
  {| row_id := "0d9f3c1e-77aa"; row_customer_name := "Asha"; row_table_number := "12";
     row_items := [thali; lassi]; row_payment_status := Some "SUCCESS";
     row_status := "confirmed"; row_user_id := Some "u-1";
     restaurants := {| restaurant_name := "Spice Hut"; slug := "spice-hut" |} |}.

Definition paidInvoice : Invoice :=
  {| invoice_id := "i-1"; invoice_number := "INV-0001" |}.

Definition invoiceAnswer : Response :=
  {| ok := true;
     json := Fulfilled {| success := true; result_invoice := Some paidInvoice |} |}.

(** A backend that holds the paid order and its invoice. *)
Definition backend : Backend :=
  {| selectOrder := fun _ => Fulfilled {| data := Some paidRow; query_error := None |};
     fetch := fun _ => Fulfilled invoiceAnswer |}.

(** The view of the paid order before any invoice is held. *)
Definition paidWithoutInvoice : State :=
  setLoading false (setOrder (Some (orderOfRow paidRow)) initial).

Definition invoiceApi : StatusPage.InvoiceApi :=
  {| StatusPage.post := fun _ _ => Fulfilled invoiceAnswer |}.

End SampleOrders.

(* ===================================================================== *)
(** ** The dashboards: loading, signing out, status badges *)
(* ===================================================================== *)

Module DashboardData.

(** [{ data: { session }, error }] of the session lookup. *)
Record SessionResult : Type := {
  session : option Checkout.Session;
  sessionError : option Checkout.AuthError
}.

(** The error of a data query: its [code], and the error as a thrown
    value (an [Error] instance with its message, or not). *)
Record QueryError : Type := {
  code : option string;
  asThrown : Thrown
}.

Record InvoicesResult : Type := {
  invoicesData : option (list Dashboard.Invoice);
  invoicesError : option QueryError
}.

Record OrdersResult : Type := {
  ordersData : option (list Dashboard.Order);
  ordersError : option QueryError
}.

Record RestaurantResult : Type := {
  restaurantData : option Checkout.Restaurant;
  restaurantError : option QueryError
}.

(** The badge tones. *)
Inductive Tone : Type := Green | Yellow | Red.

(** The icon of a status badge: its glyph and its class. *)
Definition statusIcon (tone : Tone) : PaymentSuccess.Icon * string :=
  match tone with
  | Green => (PaymentSuccess.CheckCircle, "w-4 h-4 text-green-500")
  | Yellow => (PaymentSuccess.Clock, "w-4 h-4 text-yellow-500")
  | Red => (PaymentSuccess.XCircle, "w-4 h-4 text-red-500")
  end.

Definition statusColor (tone : Tone) : string :=
  match tone with
  | Green => "bg-green-100 text-green-800"
  | Yellow => "bg-yellow-100 text-yellow-800"
  | Red => "bg-red-100 text-red-800"
  end.

(** [`/api/invoice/${invoiceId}?format=html`] *)
Definition viewUrl (invoiceId : string) : string :=
  "/api/invoice/" +:+ invoiceId +:+ "?format=html".

(** [`/api/invoice/${invoiceId}?format=html&auto_print=true`] *)
Definition printUrl (invoiceId : string) : string :=
  "/api/invoice/" +:+ invoiceId +:+ "?format=html&auto_print=true".

End DashboardData.

(** *** The global dashboard *)

Module GlobalDashboard.
Import Dashboard DashboardData.

Record Services : Type := {
  getSession : Settled SessionResult;
  selectInvoices : string -> Settled InvoicesResult;
  signOut : Settled unit
}.

Inductive Event : Type :=
| EvGetSession
| EvSelectInvoices (userId : string)
| EvSignOut
| EvPush (path : string)
| EvOpen (url : string)
| EvConsoleLog (label : string)
| EvConsoleError (label : string).

Record State : Type := {
  user : option Checkout.User;
  invoices : list Invoice;
  loading : bool;
  error : option string
}.

Definition initial : State :=
  {| user := None; invoices := []; loading := true; error := None |}.

Definition setUser (v : option Checkout.User) (s : State) : State :=
  {| user := v; invoices := invoices s; loading := loading s; error := error s |}.
Definition setInvoices (v : list Invoice) (s : State) : State :=
  {| user := user s; invoices := v; loading := loading s; error := error s |}.
Definition setLoading (v : bool) (s : State) : State :=
  {| user := user s; invoices := invoices s; loading := v; error := error s |}.
Definition setError (v : option string) (s : State) : State :=
  {| user := user s; invoices := invoices s; loading := loading s; error := v |}.

Abbreviation Prog := (M Services State Event).

Definition fetchInvoices (userId : string) : Prog unit :=
  tryCatch
    (emit (EvConsoleLog "Fetching invoices for user:");;
     emit (EvSelectInvoices userId);;
     res ← await (fun env => selectInvoices env userId);
     emit (EvConsoleLog "Invoice query result:");;
     match invoicesError res with
     | Some e =>
         emit (EvConsoleError "Supabase error:");;
         (* Check if it's a table not found error *)
         (if strictEq (code e) "42P01" then
            update (setError
                      (Some "Invoices table not found. Please set up the database first."));;
            jsReturn
          else mret tt);;
         throw (asThrown e)
     | None => mret tt
     end;;
     update (setInvoices (default [] (invoicesData res))))
    (fun err =>
       emit (EvConsoleError "Error fetching invoices:");;
       update (setError (Some ("Failed to load invoices: " +:+ messageOr err "Unknown error")))).

Definition checkUser : Prog unit :=
  tryFinally
    (tryCatch
       (emit (EvConsoleLog "Checking user session...");;
        emit EvGetSession;;
        res ← await getSession;
        emit (EvConsoleLog "Session result:");;
        match sessionError res with
        | Some e =>
            emit (EvConsoleError "Session error:");;
            update (setError (Some ("Authentication error: " +:+ Checkout.message e)));;
            update (setLoading false);;
            jsReturn
        | None => mret tt
        end;;
        match session res with
        | None =>
            emit (EvConsoleLog "No user session, redirecting to home");;
            emit (EvPush "/");;
            jsReturn
        | Some sess =>
            emit (EvConsoleLog "User authenticated:");;
            update (setUser (Some (Checkout.session_user sess)));;
            call (fetchInvoices (Checkout.user_id (Checkout.session_user sess)))
        end)
       (fun err =>
          emit (EvConsoleError "Error checking user:");;
          update (setError
                    (Some ("Failed to load user data: " +:+ messageOr err "Unknown error")))))
    (update (setLoading false)).

Definition handleSignOut : Prog unit :=
  emit EvSignOut;;
  await signOut;;
  emit (EvPush "/").

Definition handleViewInvoice (invoiceId : string) : Prog unit :=
  emit (EvOpen (viewUrl invoiceId)).

(** [getStatusIcon] and [getStatusColor] switch on the same cases. *)
Definition toneOf (status : string) : Tone :=
  if String.eqb status "paid" then Green
  else if String.eqb status "pending" then Yellow
  else Red.

Definition getStatusIcon (status : string) : PaymentSuccess.Icon * string :=
  if String.eqb status "paid" then (PaymentSuccess.CheckCircle, "w-4 h-4 text-green-500")
  else if String.eqb status "pending" then (PaymentSuccess.Clock, "w-4 h-4 text-yellow-500")
  else (PaymentSuccess.XCircle, "w-4 h-4 text-red-500").

Definition getStatusColor (status : string) : string :=
  if String.eqb status "paid" then "bg-green-100 text-green-800"
  else if String.eqb status "pending" then "bg-yellow-100 text-yellow-800"
  else "bg-red-100 text-red-800".

(** The Paid Invoices figure of the summary. *)
Definition paidInvoices (s : State) : nat :=
  length (List.filter (fun inv => String.eqb (invoice_payment_status inv) "paid")
                      (invoices s)).

(** What the page returns: the spinner, the error screen, or the
    dashboard with the email shown, the rows of the table and whether the
    table and the summary are there (else the empty state). *)
Inductive Screen : Type :=
| Spinner
| ErrorScreen (text : string)
| Board (emailShown : option string) (rows : list InvoiceRow) (withSummary : bool).

Definition render (s : State) : Screen :=
  if loading s then Spinner
  else match error s with
       | Some text =>
           if truthy text then ErrorScreen text
           else Board (user s ≫= Checkout.user_email) (invoiceRows (invoices s))
                      (negb (length (invoices s) =? 0)%nat)
       | None =>
           Board (user s ≫= Checkout.user_email) (invoiceRows (invoices s))
                 (negb (length (invoices s) =? 0)%nat)
       end.

Definition queries (t : list Event) : list Event :=
  List.filter (fun e => match e with EvSelectInvoices _ => true | _ => false end) t.

Definition redirects (t : list Event) : list Event :=
  List.filter (fun e => match e with EvPush _ => true | _ => false end) t.

End GlobalDashboard.

(** *** The per-restaurant dashboard *)

Module RestaurantDashboard.
Import Dashboard DashboardData.

(** The route parameter and the answers of the external services. *)
Record Services : Type := {
  restaurantSlug : string;
  getSession : Settled SessionResult;
  selectRestaurant : string -> Settled RestaurantResult;
  selectOrders : string -> string -> Settled OrdersResult;
  selectInvoices : string -> string -> Settled InvoicesResult;
  signOut : Settled unit
}.

Inductive Event : Type :=
| EvGetSession
| EvSelectRestaurant (slug : string)
| EvSelectOrders (userId restaurantId : string)
| EvSelectInvoices (userId restaurantId : string)
| EvSignOut
| EvPush (path : string)
| EvOpen (url : string)
| EvConsoleLog (label : string)
| EvConsoleError (label : string).

Record State : Type := {
  user : option Checkout.User;
  restaurant : option Checkout.Restaurant;
  orders : list Order;
  invoices : list Invoice;
  loading : bool;
  error : option string
}.

Definition initial : State :=
  {| user := None; restaurant := None; orders := []; invoices := [];
     loading := true; error := None |}.

Definition setUser (v : option Checkout.User) (s : State) : State :=
  {| user := v; restaurant := restaurant s; orders := orders s; invoices := invoices s;
     loading := loading s; error := error s |}.
Definition setRestaurant (v : option Checkout.Restaurant) (s : State) : State :=
  {| user := user s; restaurant := v; orders := orders s; invoices := invoices s;
     loading := loading s; error := error s |}.
Definition setOrders (v : list Order) (s : State) : State :=
  {| user := user s; restaurant := restaurant s; orders := v; invoices := invoices s;
     loading := loading s; error := error s |}.
Definition setInvoices (v : list Invoice) (s : State) : State :=
  {| user := user s; restaurant := restaurant s; orders := orders s; invoices := v;
     loading := loading s; error := error s |}.
Definition setLoading (v : bool) (s : State) : State :=
  {| user := user s; restaurant := restaurant s; orders := orders s;
     invoices := invoices s; loading := v; error := error s |}.
Definition setError (v : option string) (s : State) : State :=
  {| user := user s; restaurant := restaurant s; orders := orders s;
     invoices := invoices s; loading := loading s; error := v |}.

Abbreviation Prog := (M Services State Event).

Definition menuPath (slug : string) : string := "/" +:+ slug +:+ "/menu".

Definition fetchOrders (userId restaurantId : string) : Prog unit :=
  tryCatch
    (emit (EvSelectOrders userId restaurantId);;
     res ← await (fun env => selectOrders env userId restaurantId);
     match ordersError res with
     | Some _ => emit (EvConsoleError "Error fetching orders:");; jsReturn
     | None => mret tt
     end;;
     update (setOrders (default [] (ordersData res))))
    (fun err => emit (EvConsoleError "Error fetching orders:")).

Definition fetchInvoices (userId restaurantId : string) : Prog unit :=
  tryCatch
    (emit (EvSelectInvoices userId restaurantId);;
     res ← await (fun env => selectInvoices env userId restaurantId);
     match invoicesError res with
     | Some _ => emit (EvConsoleError "Error fetching invoices:");; jsReturn
     | None => mret tt
     end;;
     update (setInvoices (default [] (invoicesData res))))
    (fun err => emit (EvConsoleError "Error fetching invoices:")).

Definition checkAuthAndLoadData : Prog unit :=
  tryFinally
    (tryCatch
       (update (setLoading true);;
        update (setError None);;
        (* Check authentication *)
        emit EvGetSession;;
        res ← await getSession;
        match sessionError res with
        | Some _ =>
            emit (EvConsoleError "Session error:");;
            update (setError (Some "Authentication error"));;
            jsReturn
        | None => mret tt
        end;;
        match session res with
        | None =>
            emit (EvConsoleLog "No user session, redirecting to restaurant menu");;
            slug ← asks restaurantSlug;
            emit (EvPush (menuPath slug));;
            jsReturn
        | Some sess =>
            update (setUser (Some (Checkout.session_user sess)));;
            (* Fetch restaurant data *)
            slug ← asks restaurantSlug;
            emit (EvSelectRestaurant slug);;
            found ← await (fun env => selectRestaurant env slug);
            match restaurantError found, restaurantData found with
            | None, Some restaurantData =>
                update (setRestaurant (Some restaurantData));;
                (* Fetch user's orders for this restaurant *)
                call (fetchOrders (Checkout.user_id (Checkout.session_user sess))
                                  (Checkout.restaurant_id restaurantData));;
                (* Fetch user's invoices for this restaurant *)
                call (fetchInvoices (Checkout.user_id (Checkout.session_user sess))
                                    (Checkout.restaurant_id restaurantData))
            | _, _ =>
                emit (EvConsoleError "Restaurant error:");;
                update (setError (Some "Restaurant not found"));;
                jsReturn
            end
        end)
       (fun err =>
          emit (EvConsoleError "Error loading dashboard:");;
          update (setError (Some "Failed to load dashboard data"))))
    (update (setLoading false)).

Definition handleSignOut : Prog unit :=
  tryCatch
    (emit EvSignOut;;
     await signOut;;
     slug ← asks restaurantSlug;
     emit (EvPush (menuPath slug)))
    (fun err => emit (EvConsoleError "Error signing out:")).

Definition handleBackToMenu : Prog unit :=
  slug ← asks restaurantSlug;
  emit (EvPush (menuPath slug)).

Definition handleViewInvoice (invoiceId : string) : Prog unit :=
  emit (EvOpen (viewUrl invoiceId)).

Definition getStatusIcon (status : string) : PaymentSuccess.Icon * string :=
  if String.eqb status "SUCCESS" || String.eqb status "paid" || String.eqb status "confirmed"
  then (PaymentSuccess.CheckCircle, "w-4 h-4 text-green-500")
  else if String.eqb status "pending" || String.eqb status "PENDING"
  then (PaymentSuccess.Clock, "w-4 h-4 text-yellow-500")
  else (PaymentSuccess.XCircle, "w-4 h-4 text-red-500").

Definition getStatusColor (status : string) : string :=
  if String.eqb status "SUCCESS" || String.eqb status "paid" || String.eqb status "confirmed"
  then "bg-green-100 text-green-800"
  else if String.eqb status "pending" || String.eqb status "PENDING"
  then "bg-yellow-100 text-yellow-800"
  else "bg-red-100 text-red-800".

(** [order.payment_status || order.status]: the status the badge shows. *)
Definition badgeStatus (order : Order) : string :=
  orElse (payment_status order) (status order).

(** The invoice corner of an order card: the actions of the joined
    invoice, or one of two texts. *)
Inductive InvoiceCell : Type :=
| CellActions (held : Invoice) (url : string)
| CellGenerating
| CellUnavailable.

Definition invoiceCell (card : OrderCard) : InvoiceCell :=
  match card_invoice card with
  | Some held => CellActions held (viewUrl (invoice_id held))
  | None =>
      if strictEq (payment_status (card_order card)) "SUCCESS"
      then CellGenerating else CellUnavailable
  end.

(** What the page returns: the spinner, the error screen, nothing, or the
    dashboard with its order cards. *)
Inductive Screen : Type :=
| Spinner
| ErrorScreen (text : string)
| Blank
| Board (u : Checkout.User) (r : Checkout.Restaurant) (cards : list OrderCard).

Definition render (s : State) : Screen :=
  if loading s then Spinner
  else if truthyOpt (error s) then ErrorScreen (default "" (error s))
  else match user s, restaurant s with
       | Some u, Some r => Board u r (orderCards (orders s) (invoices s))
       | _, _ => Blank
       end.

Definition isDataQuery (e : Event) : bool :=
  match e with
  | EvSelectRestaurant _ | EvSelectOrders _ _ | EvSelectInvoices _ _ => true
  | _ => false
  end.

Definition dataQueries (t : list Event) : list Event := List.filter isDataQuery t.

Definition redirects (t : list Event) : list Event :=
  List.filter (fun e => match e with EvPush _ => true | _ => false end) t.

End RestaurantDashboard.

(** *** The print button *)

Module InvoicePrint.
Import DashboardData.

(** A call of [window.open]: the address and the window features, when
    given. *)
Record OpenCall : Type := {
  open_url : string;
  open_features : option string
}.

(** [window.open] returns a window or [null], or throws. *)
Record Browser : Type := {
  windowOpen : OpenCall -> Settled bool
}.

Inductive Event : Type :=
| EvOpen (request : OpenCall)
| EvFocus
| EvAlert (text : string)
| EvConsoleLog (label : string)
| EvConsoleError (label : string).

(** The component state: [printing]. *)
Definition setPrinting (v : bool) (printing : bool) : bool := v.

Definition popup (invoiceId : string) : OpenCall :=
  {| open_url := printUrl invoiceId;
     open_features := Some "width=800,height=600,scrollbars=yes,resizable=yes" |}.

Definition fallback (invoiceId : string) : OpenCall :=
  {| open_url := printUrl invoiceId; open_features := None |}.

Definition printInvoice (invoiceId : string) : M Browser bool Event unit :=
  tryFinally
    (tryCatch
       (update (setPrinting true);;
        emit (EvConsoleLog "Opening invoice for printing:");;
        (* Open the invoice in a new window with auto-print enabled *)
        emit (EvOpen (popup invoiceId));;
        printWindow ← await (fun env => windowOpen env (popup invoiceId));
        if printWindow : bool then
          emit EvFocus;;
          emit (EvConsoleLog "Print window opened successfully")
        else
          throw (JsError "Failed to open print window - popup might be blocked"))
       (fun error =>
          emit (EvConsoleError "Error opening print window:");;
          (* Fallback: Try to open in same tab *)
          tryCatch
            (emit (EvOpen (fallback invoiceId));;
             await (fun env => windowOpen env (fallback invoiceId));;
             mret tt)
            (fun fallbackError =>
               emit (EvConsoleError "Fallback print failed:");;
               emit (EvAlert
                       "Unable to open print dialog. Please check if popups are blocked."))))
    (update (setPrinting false)).

Definition opens (t : list Event) : list Event :=
  List.filter (fun e => match e with EvOpen _ => true | _ => false end) t.

Definition alerts (t : list Event) : list Event :=
  List.filter (fun e => match e with EvAlert _ => true | _ => false end) t.

End InvoicePrint.

Module SampleDashboards.
Import Dashboard DashboardData.

Definition ashaSession : SessionResult :=
  {| session := Some {| Checkout.session_user := Examples.asha |}; sessionError := None |}.

Definition heldInvoices : list Invoice := [Examples.lunchInvoice; Examples.dinnerInvoice].

Definition heldOrders : list Order := [Examples.dinner; Examples.lunch].

(** The services of the global dashboard for a signed-in customer. *)
Definition globalServices : GlobalDashboard.Services :=
  {| GlobalDashboard.getSession := Fulfilled ashaSession;
     GlobalDashboard.selectInvoices :=
       fun _ => Fulfilled {| invoicesData := Some heldInvoices; invoicesError := None |};
     GlobalDashboard.signOut := Fulfilled tt |}.

(** The services of the restaurant's dashboard for the same customer; the
    invoices query fails. *)
Definition restaurantServices : RestaurantDashboard.Services :=
  {| RestaurantDashboard.restaurantSlug := "spice-hut";
     RestaurantDashboard.getSession := Fulfilled ashaSession;
     RestaurantDashboard.selectRestaurant :=
       fun _ => Fulfilled {| restaurantData := Some Examples.spiceHut;
                             restaurantError := None |};
     RestaurantDashboard.selectOrders :=
       fun _ _ => Fulfilled {| ordersData := Some heldOrders; ordersError := None |};
     RestaurantDashboard.selectInvoices := fun _ _ => Rejected (JsError "Failed to fetch");
     RestaurantDashboard.signOut := Fulfilled tt |}.

(** The same services when the restaurant is unknown. *)
Definition unknownRestaurant : RestaurantDashboard.Services :=
  {| RestaurantDashboard.restaurantSlug := "no-such-place";
     RestaurantDashboard.getSession := Fulfilled ashaSession;
     RestaurantDashboard.selectRestaurant :=
       fun _ => Fulfilled {| restaurantData := None;
                             restaurantError :=
                               Some {| code := Some "PGRST116"; asThrown := JsOther |} |};
     RestaurantDashboard.selectOrders := fun _ _ => Rejected JsOther;
     RestaurantDashboard.selectInvoices := fun _ _ => Rejected JsOther;
     RestaurantDashboard.signOut := Fulfilled tt |}.

(** The same services without a session. *)
Definition signedOutServices : RestaurantDashboard.Services :=
  {| RestaurantDashboard.restaurantSlug := "spice-hut";
     RestaurantDashboard.getSession :=
       Fulfilled {| session := None; sessionError := None |};
     RestaurantDashboard.selectRestaurant := fun _ => Rejected JsOther;
     RestaurantDashboard.selectOrders := fun _ _ => Rejected JsOther;
     RestaurantDashboard.selectInvoices := fun _ _ => Rejected JsOther;
     RestaurantDashboard.signOut := Fulfilled tt |}.

End SampleDashboards.

(* ===================================================================== *)
(** ** Properties of the order-status view *)
(* ===================================================================== *)

Section PaymentSuccessFacts.
Import PaymentSuccess.

(** Unfolds a program of the view down to its case analysis. *)
Ltac view_unfold :=
  cbv [run call mountEffect handleRefresh fetchOrder fetchInvoice
       mbind M_bind bind mret M_ret ret tryCatch tryFinally emit await update
       asks when throw jsReturn].

Lemma descriptor_inj c1 c2 : descriptor c1 = descriptor c2 -> c1 = c2.
Proof. destruct c1, c2; simpl; intros H; congruence. Qed.

(** C1: [getPaymentStatusInfo] sends 'SUCCESS' to the success descriptor,
    'FAILED' to the failed one, 'PENDING' and 'PROCESSING' both to the
    pending/processing one and null to the unset one; every value gets
    the descriptor of exactly one of the four categories; and
    [showRefresh] is true exactly for the failed and the
    pending/processing descriptors. *)
Theorem C1_payment_status_classification :
  getPaymentStatusInfo (Some "SUCCESS") = descriptor Success
  /\ getPaymentStatusInfo (Some "FAILED") = descriptor Failed
  /\ getPaymentStatusInfo (Some "PENDING") = descriptor Processing
  /\ getPaymentStatusInfo (Some "PROCESSING") = descriptor Processing
  /\ getPaymentStatusInfo None = descriptor Unset
  /\ (forall v, exists! c, getPaymentStatusInfo v = descriptor c)
  /\ (forall v, showRefresh (getPaymentStatusInfo v) = true
                <-> getPaymentStatusInfo v = descriptor Failed
                    \/ getPaymentStatusInfo v = descriptor Processing)
  /\ showRefresh (descriptor Success) = false
  /\ showRefresh (descriptor Unset) = false.
Proof.
  assert (Hcat : forall v, exists c, getPaymentStatusInfo v = descriptor c).
  { intros v. unfold getPaymentStatusInfo.
    destruct (strictEq v "SUCCESS"); [by exists Success |].
    destruct (strictEq v "FAILED"); [by exists Failed |].
    destruct (strictEq v "PENDING" || strictEq v "PROCESSING");
      [by exists Processing | by exists Unset]. }
  repeat split; try reflexivity.
  - intros v. destruct (Hcat v) as [c Hc]. exists c. split; [exact Hc |].
    intros c' Hc'. apply descriptor_inj. congruence.
  - intros Hshow. destruct (Hcat v) as [c Hc]. rewrite Hc in *.
    destruct c; simpl in Hshow; try discriminate; auto.
  - intros [H | H]; rewrite H; reflexivity.
Qed.

(** *** The estimate *)

Lemma fold_left_max_out (l : list Z) (a b : Z) :
  fold_left Z.max l (Z.max a b) = Z.max a (fold_left Z.max l b).
Proof.
  revert b. induction l as [| x l IH]; intros b; simpl; [reflexivity |].
  rewrite <- Z.max_assoc. apply IH.
Qed.

Lemma estimatedTime_fold (items : list Item) (a : Z) :
  fold_left (fun max item => Z.max max (orZero (preparation_time item))) items a
  = fold_left Z.max (preparationTimes items) a.
Proof.
  revert a. induction items as [| item items IH]; intros a; simpl; [reflexivity |].
  apply IH.
Qed.

Lemma estimatedTime_clamped (items : list Item) :
  estimatedTime items = Z.max 0 (maximum (preparationTimes items)).
Proof.
  unfold estimatedTime. rewrite estimatedTime_fold.
  destruct (preparationTimes items) as [| x rest]; simpl; [reflexivity |].
  apply fold_left_max_out.
Qed.

(** C10, as amended: the estimate is the larger of 0 and the maximum of
    the items' preparation times (a missing one counted as 0), and it is 0
    for an empty item list. *)
Theorem C10_estimatedTime_is_clamped_maximum (items : list Item) :
  estimatedTime items = Z.max 0 (maximum (preparationTimes items))
  /\ estimatedTime [] = 0.
Proof. split; [apply estimatedTime_clamped | reflexivity]. Qed.

(** C10, as stated, fails for an order whose only item has a negative
    preparation time: the maximum is -5 and the estimate is 0. *)
Lemma C10_counterexample :
  estimatedTime [ {| dish_name := "Tea"; quantity := 1; preparation_time := Some (-5) |} ]
  <> maximum (preparationTimes
                [ {| dish_name := "Tea"; quantity := 1; preparation_time := Some (-5) |} ]).
Proof. vm_compute. discriminate. Qed.

(** The estimate is the maximum itself as soon as one item has a
    preparation time that is not negative. *)
Lemma estimatedTime_maximum (items : list Item) :
  Exists (fun x => 0 <= x) (preparationTimes items) ->
  estimatedTime items = maximum (preparationTimes items).
Proof.
  intros Hex. rewrite estimatedTime_clamped.
  apply Z.max_r.
  destruct (preparationTimes items) as [| x rest]; simpl; [lia |].
  assert (Hge : forall l a, a <= fold_left Z.max l a).
  { induction l as [| y l IH]; intros a; simpl; [lia |].
    specialize (IH (Z.max a y)). lia. }
  assert (Hin : forall l a y, In y l -> y <= fold_left Z.max l a).
  { induction l as [| z l IH]; intros a y; simpl; [tauto |].
    intros [-> | Hy]; [| by apply IH].
    specialize (Hge l (Z.max a y)). lia. }
  apply Exists_exists in Hex. destruct Hex as [y [Hy Hpos]].
  apply list_elem_of_In in Hy. simpl in Hy. destruct Hy as [<- | Hy].
  - specialize (Hge rest x). lia.
  - specialize (Hin rest x y Hy). lia.
Qed.

(** *** The mount effect *)

Lemma invoiceUrl_is_lookup (orderId : string) :
  isInvoiceLookup (EvFetch (invoiceUrl orderId)) = true.
Proof. reflexivity. Qed.

(** [fetchInvoice] never throws and ends the trace with its one request,
    possibly followed by a console message. *)
Lemma fetchInvoice_run (env : Backend) (s : State) (t : list Event) (orderId : string) :
  exists s' logged,
    call (fetchInvoice orderId) env s t
    = (Normal tt, s', t ++ EvFetch (invoiceUrl orderId) :: logged)
    /\ invoiceLookups logged = []
    /\ loading s' = loading s /\ error s' = error s /\ order s' = order s.
Proof.
  view_unfold.
  destruct (fetch env (invoiceUrl orderId)) as [response | e].
  - destruct (ok response).
    + destruct (json response) as [result | e].
      * destruct (success result), (result_invoice result);
          eexists _, []; (split; [reflexivity | by simpl]).
      * eexists _, [_]. rewrite <- app_assoc. split; [reflexivity | by simpl].
    + eexists _, []. split; [reflexivity | by simpl].
  - eexists _, [_]. rewrite <- app_assoc. split; [reflexivity | by simpl].
Qed.

(** [fetchOrder] by the outcome of the order load. *)
Lemma fetchOrder_run (env : Backend) (s : State) (t : list Event) (orderId : option string) :
  match loadedOrder env orderId with
  | None =>
      fetchOrder orderId env s t
      = (Normal tt, setError (Some "Failed to load order details") s,
         t ++ [EvSelectOrder orderId; EvConsoleError "Error fetching order:"])
  | Some row =>
      exists s' logged,
        fetchOrder orderId env s t = (Normal tt, s', t ++ EvSelectOrder orderId :: logged)
        /\ order s' = Some (orderOfRow row)
        /\ error s' = error s
        /\ loading s' = loading s
        /\ invoiceLookups logged
           = if strictEq (row_payment_status row) "SUCCESS"
             then [EvFetch (invoiceUrl (row_id row))] else []
  end.
Proof.
  unfold loadedOrder, fetchOrder.
  cbv [mbind M_bind bind mret M_ret ret tryCatch emit await update when throw].
  destruct (selectOrder env orderId) as [[d qe] | e]; simpl.
  - destruct qe as [e |]; simpl.
    { by rewrite <- app_assoc. }
    destruct d as [row |]; simpl.
    + destruct (strictEq (row_payment_status row) "SUCCESS").
      * destruct (fetchInvoice_run env (setOrder (Some (orderOfRow row)) s)
                    (t ++ [EvSelectOrder orderId]) (row_id row))
          as (s' & logged & Hrun & Hlogged & Hloading & Herror & Horder).
        rewrite Hrun. rewrite <- app_assoc. simpl.
        exists s', (EvFetch (invoiceUrl (row_id row)) :: logged).
        repeat split; try done.
        unfold invoiceLookups in *. simpl. by rewrite Hlogged.
      * exists (setOrder (Some (orderOfRow row)) s), []. by repeat split.
    + by rewrite <- app_assoc.
  - by rewrite <- app_assoc.
Qed.

(** C7: when the order identifier is absent (or empty) or the order load
    fails, the mount effect leaves the view on the not-found screen and
    the trace holds no invoice lookup; a trace with an invoice lookup comes
    from a present identifier, a successful load and the payment status
    'SUCCESS', and the lookup is for the loaded order. *)
Theorem C7_invoice_lookup_only_after_successful_load
  (env : Backend) (s : State) (orderId : option string)
  (c : Completion unit) (s' : State) (t : list Event) :
  run (mountEffect orderId) env s = (c, s', t) ->
  ((truthyOpt orderId = false \/ loadedOrder env orderId = None) ->
   render s' = NotFoundScreen /\ invoiceLookups t = [])
  /\ (invoiceLookups t <> [] ->
      truthyOpt orderId = true
      /\ exists row,
          loadedOrder env orderId = Some row
          /\ row_payment_status row = Some "SUCCESS"
          /\ invoiceLookups t = [EvFetch (invoiceUrl (row_id row))]).
Proof.
  unfold run, mountEffect.
  destruct (truthyOpt orderId) eqn:Htruthy; simpl.
  - cbv [call mbind M_bind bind mret M_ret ret update].
    pose proof (fetchOrder_run env s [] orderId) as Hfetch.
    destruct (loadedOrder env orderId) as [row |] eqn:Hload.
    + destruct Hfetch as (s1 & logged & -> & Horder & Herror & Hloading & Hlogged).
      simpl. intros [= <- <- <-]. split.
      * intros [? | ?]; discriminate.
      * unfold invoiceLookups in *. simpl. rewrite Hlogged.
        destruct (row_payment_status row) as [status |] eqn:Hstatus; simpl; [| done].
        destruct (String.eqb status "SUCCESS") eqn:Heq; [| done].
        apply String.eqb_eq in Heq. subst status.
        intros _. split; [done |]. by exists row.
    + rewrite Hfetch. simpl. intros [= <- <- <-]. by split.
  - cbv [call mbind M_bind bind mret M_ret ret update jsReturn].
    intros [= <- <- <-]. split; [by intros _ | intros []; done].
Qed.

(** C7 at a mount without an order identifier. *)
Lemma C7_witness :
  render (setLoading false (setError (Some "Order ID not found") initial)) = NotFoundScreen
  /\ invoiceLookups [] = [].
Proof.
  pose (env := {| selectOrder := fun _ => Rejected JsOther;
                  fetch := fun _ => Rejected JsOther |}).
  apply (C7_invoice_lookup_only_after_successful_load env initial None
           (Normal tt) _ [] eq_refl).
  by left.
Defined.

End PaymentSuccessFacts.

(* ===================================================================== *)
(** ** Properties of the checkout dialog *)
(* ===================================================================== *)

Section CheckoutFacts.
Import Checkout.

(** Unfolds a handler down to its case analysis. *)
Ltac handler_unfold :=
  cbv [run call handleEmailSubmit handleResendMagicLink handleDetailsSubmit
       handleBack onAuthEvent checkAuthState
       mbind M_bind bind mret M_ret ret tryCatch tryFinally emit await update
       asks when throw jsReturn].

Lemma strictEq_false (v : option string) (lit : string) :
  v <> Some lit -> strictEq v lit = false.
Proof.
  destruct v as [s |]; simpl; [| done].
  intros Hne. apply String.eqb_neq. congruence.
Qed.

Lemma strictEq_true (v : option string) (lit : string) :
  v = Some lit -> strictEq v lit = true.
Proof. intros ->. simpl. apply String.eqb_refl. Qed.

(** *** The email step *)

(** The email submission when the provider reports no user with the
    submitted email: one request, and the outcome follows its answer. *)
Lemma handleEmailSubmit_sends (env : Env) (r : State) (currentUser : option User) :
  truthy (trim (email r)) = true ->
  getUser env = Fulfilled currentUser ->
  (currentUser = None \/ exists u, currentUser = Some u /\ user_email u <> Some (email r)) ->
  let req := otpRequest env (trim (email r)) (email r) in
  run (handleEmailSubmit r) env r
  = match signInWithOtp env req with
    | Fulfilled None =>
        (Normal tt,
         setLoading false (setResendCooldown 60 (setAuthStep StepWaiting
           (setMagicLinkSent true (setError None (setLoading true r))))),
         [EvPreventDefault; EvGetUser; EvSignInWithOtp req])
    | Fulfilled (Some e) =>
        (Normal tt,
         setLoading false (setError (Some (message e)) (setError None (setLoading true r))),
         [EvPreventDefault; EvGetUser; EvSignInWithOtp req;
          EvConsoleError "Email submission error:"])
    | Rejected err =>
        (Normal tt,
         setLoading false (setError (Some (messageOr err "Failed to send magic link"))
                             (setError None (setLoading true r))),
         [EvPreventDefault; EvGetUser; EvSignInWithOtp req;
          EvConsoleError "Email submission error:"])
    end.
Proof.
  intros Htrim Hget Hnomatch req. handler_unfold. rewrite Htrim, Hget. simpl.
  assert (Hskip : match currentUser with
                  | Some u => strictEq (user_email u) (email r)
                  | None => false
                  end = false).
  { destruct Hnomatch as [-> | (u & -> & Hne)]; [done | by apply strictEq_false]. }
  destruct currentUser as [u |]; [rewrite Hskip |]; simpl; fold req;
    destruct (signInWithOtp env req) as [[e |] | err]; reflexivity.
Qed.

(** C2: an email-step submission with a non-empty trimmed email, when the
    provider reports no user or a user whose email differs from the
    submitted one, sends exactly one magic-link request; when that request
    succeeds the step becomes 'waiting' and the resend cooldown 60. *)
Theorem C2_email_submit_requests_one_magic_link
  (env : Env) (r : State) (currentUser : option User)
  (c : Completion unit) (s' : State) (t : list Event) :
  truthy (trim (email r)) = true ->
  getUser env = Fulfilled currentUser ->
  (currentUser = None \/ exists u, currentUser = Some u /\ user_email u <> Some (email r)) ->
  run (handleEmailSubmit r) env r = (c, s', t) ->
  magicLinks t = [EvSignInWithOtp (otpRequest env (trim (email r)) (email r))]
  /\ (signInWithOtp env (otpRequest env (trim (email r)) (email r)) = Fulfilled None ->
      authStep s' = StepWaiting /\ resendCooldown s' = 60).
Proof.
  intros Htrim Hget Hnomatch.
  rewrite (handleEmailSubmit_sends env r currentUser Htrim Hget Hnomatch). simpl.
  destruct (signInWithOtp env _) as [[e |] | err]; intros [= <- <- <-]; by split.
Qed.

(** C2 for a customer without a session. *)
Lemma C2_witness :
  magicLinks [EvPreventDefault; EvGetUser;
              EvSignInWithOtp (otpRequest Examples.signedOut "asha@example.com"
                                          "asha@example.com")]
  = [EvSignInWithOtp (otpRequest Examples.signedOut (trim (email Examples.typedEmail))
                                 (email Examples.typedEmail))]
  /\ (signInWithOtp Examples.signedOut
        (otpRequest Examples.signedOut (trim (email Examples.typedEmail))
                    (email Examples.typedEmail)) = Fulfilled None ->
      authStep (setLoading false (setResendCooldown 60 (setAuthStep StepWaiting
                 (setMagicLinkSent true (setError None (setLoading true Examples.typedEmail))))))
      = StepWaiting
      /\ resendCooldown (setLoading false (setResendCooldown 60 (setAuthStep StepWaiting
                 (setMagicLinkSent true (setError None (setLoading true Examples.typedEmail))))))
         = 60).
Proof.
  apply (C2_email_submit_requests_one_magic_link Examples.signedOut Examples.typedEmail
           None (Normal tt)).
  - reflexivity.
  - reflexivity.
  - left. reflexivity.
  - reflexivity.
Defined.

(** The email submission when the provider reports a user with the
    submitted email. *)
Lemma handleEmailSubmit_matches (env : Env) (r : State) (u : User) :
  truthy (trim (email r)) = true ->
  getUser env = Fulfilled (Some u) ->
  user_email u = Some (email r) ->
  run (handleEmailSubmit r) env r
  = (Normal tt,
     setLoading false (setAuthStep StepDetails (setCustomerInfo (withEmail (email r))
       (setUser (Some u) (setError None (setLoading true r))))),
     [EvPreventDefault; EvGetUser]).
Proof.
  intros Htrim Hget Hmatch. handler_unfold. rewrite Htrim, Hget. simpl.
  by rewrite (strictEq_true _ _ Hmatch).
Qed.



(** The email form submits only a non-empty trimmed email: its button is
    disabled otherwise. *)
Lemma offered_submit_has_email (r : State) :
  CheckoutView.offered r SubmitEmail = true -> truthy (trim (email r)) = true.
Proof.
  unfold CheckoutView.offered, CheckoutView.emailSubmitDisabled.
  destruct (authStep r); try discriminate.
  destruct (loading r); simpl; [discriminate |].
  by destruct (truthy (trim (email r))).
Qed.

(** Hence every submission the rendered email form offers, when the
    current user's email equals the submitted email, goes to the details
    step without a magic-link request. *)
Lemma offered_matching_submit_goes_to_details (env : Env) (r : State) (u : User) :
  CheckoutView.offered r SubmitEmail = true ->
  getUser env = Fulfilled (Some u) ->
  user_email u = Some (email r) ->
  run (handleEmailSubmit r) env r
  = (Normal tt,
     setLoading false (setAuthStep StepDetails (setCustomerInfo (withEmail (email r))
       (setUser (Some u) (setError None (setLoading true r))))),
     [EvPreventDefault; EvGetUser]).
Proof.
  intros Hoffered. apply handleEmailSubmit_matches. by apply offered_submit_has_email.
Qed.

(** *** The details step *)

(** C5: a details-step submission with an empty trimmed name, phone or
    table number keeps the step, does not call the placement callback and
    sets the validation message; with all three non-empty it calls the
    placement callback exactly once, with the customer info draft and the
    current user (or null), and changes no state. *)
Theorem C5_details_submit_validates_then_places_once
  (env : Env) (r : State) (c : Completion unit) (s' : State) (t : list Event) :
  run (handleDetailsSubmit r) env r = (c, s', t) ->
  ((truthy (trim (name (customerInfo r))) = false
    \/ truthy (trim (phone (customerInfo r))) = false
    \/ truthy (trim (tableNumber (customerInfo r))) = false) ->
   authStep s' = authStep r
   /\ placements t = []
   /\ error s' = Some "Please fill in all required fields")
  /\ ((truthy (trim (name (customerInfo r))) = true
       /\ truthy (trim (phone (customerInfo r))) = true
       /\ truthy (trim (tableNumber (customerInfo r))) = true) ->
      placements t = [EvPlaceOrder (customerInfo r) (user r)]
      /\ s' = r).
Proof.
  handler_unfold.
  destruct (truthy (trim (name (customerInfo r)))),
           (truthy (trim (phone (customerInfo r)))),
           (truthy (trim (tableNumber (customerInfo r))));
    simpl; intros [= <- <- <-]; split;
    solve [ by intros _ | intros [? | [? | ?]]; discriminate
          | intros (? & ? & ?); discriminate ].
Qed.

(** C5 for a draft without a phone number. *)
Lemma C5_witness :
  authStep (setError (Some "Please fill in all required fields")
              (Examples.detailsWith Examples.noPhoneInfo))
  = authStep (Examples.detailsWith Examples.noPhoneInfo)
  /\ placements [EvPreventDefault] = []
  /\ error (setError (Some "Please fill in all required fields")
              (Examples.detailsWith Examples.noPhoneInfo))
     = Some "Please fill in all required fields".
Proof.
  apply (C5_details_submit_validates_then_places_once Examples.signedOut
           (Examples.detailsWith Examples.noPhoneInfo) (Normal tt) _ _ eq_refl).
  right. left. reflexivity.
Defined.

(** *** Failures of the magic-link operation *)

Lemma handleResendMagicLink_sends (env : Env) (r : State) :
  resendCooldown r <= 0 ->
  let req := otpRequest env (email r) (email r) in
  run (handleResendMagicLink r) env r
  = match signInWithOtp env req with
    | Fulfilled None =>
        (Normal tt,
         setLoading false (setResendCooldown 60 (setError None (setLoading true r))),
         [EvSignInWithOtp req])
    | Fulfilled (Some e) =>
        (Normal tt,
         setLoading false (setError (Some (message e)) (setError None (setLoading true r))),
         [EvSignInWithOtp req; EvConsoleError "Resend magic link error:"])
    | Rejected err =>
        (Normal tt,
         setLoading false (setError (Some (messageOr err "Failed to resend magic link"))
                             (setError None (setLoading true r))),
         [EvSignInWithOtp req; EvConsoleError "Resend magic link error:"])
    end.
Proof.
  intros Hcool req. handler_unfold.
  replace (resendCooldown r >? 0) with false by lia. simpl. fold req.
  destruct (signInWithOtp env req) as [[e |] | err]; reflexivity.
Qed.

Lemma handleResendMagicLink_waits (env : Env) (r : State) :
  0 < resendCooldown r ->
  run (handleResendMagicLink r) env r = (Normal tt, r, []).
Proof.
  intros Hcool. handler_unfold.
  by replace (resendCooldown r >? 0) with true by lia.
Qed.

(** C6: when the magic-link operation fails, by a returned error or by a
    rejection, the handler sets [error] to the failure's message and
    leaves the auth step, the cooldown and the user as they were, both for
    the email submission and for the resend. *)
Theorem C6_magic_link_failure_sets_error_only
  (env : Env) (r : State) (msg : string)
  (c : Completion unit) (s' : State) (t : list Event) :
  (forall currentUser,
     truthy (trim (email r)) = true ->
     getUser env = Fulfilled currentUser ->
     (currentUser = None
      \/ exists u, currentUser = Some u /\ user_email u <> Some (email r)) ->
     failureMessage (signInWithOtp env (otpRequest env (trim (email r)) (email r)))
                    "Failed to send magic link" = Some msg ->
     run (handleEmailSubmit r) env r = (c, s', t) ->
     error s' = Some msg /\ authStep s' = authStep r
     /\ resendCooldown s' = resendCooldown r /\ user s' = user r)
  /\ (resendCooldown r <= 0 ->
      failureMessage (signInWithOtp env (otpRequest env (email r) (email r)))
                     "Failed to resend magic link" = Some msg ->
      run (handleResendMagicLink r) env r = (c, s', t) ->
      error s' = Some msg /\ authStep s' = authStep r
      /\ resendCooldown s' = resendCooldown r /\ user s' = user r).
Proof.
  split.
  - intros currentUser Htrim Hget Hnomatch.
    rewrite (handleEmailSubmit_sends env r currentUser Htrim Hget Hnomatch). simpl.
    destruct (signInWithOtp env _) as [[e |] | err]; simpl;
      intros [= <-]; intros [= <- <- <-]; by repeat split.
  - intros Hcool. rewrite (handleResendMagicLink_sends env r Hcool). simpl.
    destruct (signInWithOtp env _) as [[e |] | err]; simpl;
      intros [= <-]; intros [= <- <- <-]; by repeat split.
Qed.

(** C6 for a resend that the provider refuses. *)
Lemma C6_witness :
  error (setLoading false (setError (Some "Email rate limit exceeded")
           (setError None (setLoading true (Examples.waitingFor 0)))))
  = Some "Email rate limit exceeded"
  /\ authStep (setLoading false (setError (Some "Email rate limit exceeded")
           (setError None (setLoading true (Examples.waitingFor 0)))))
     = authStep (Examples.waitingFor 0)
  /\ resendCooldown (setLoading false (setError (Some "Email rate limit exceeded")
           (setError None (setLoading true (Examples.waitingFor 0)))))
     = resendCooldown (Examples.waitingFor 0)
  /\ user (setLoading false (setError (Some "Email rate limit exceeded")
           (setError None (setLoading true (Examples.waitingFor 0)))))
     = user (Examples.waitingFor 0).
Proof.
  apply (C6_magic_link_failure_sets_error_only Examples.rateLimited (Examples.waitingFor 0)
           "Email rate limit exceeded" (Normal tt) _
           [EvSignInWithOtp (otpRequest Examples.rateLimited "asha@example.com"
                                        "asha@example.com");
            EvConsoleError "Resend magic link error:"]).
  - simpl. lia.
  - reflexivity.
  - reflexivity.
Defined.

(** *** The life of a mounted component *)

(** Case analysis on the innermost scrutinee the goal is stuck on. *)
Ltac split_matches :=
  repeat match goal with
    | |- context [match ?x with _ => _ end] =>
        lazymatch x with
        | context [match _ with _ => _ end] => fail
        | _ => destruct x; simpl
        end
    end.

(** No reaction of the component but the timer's changes the cooldown
    other than to 60. *)
Lemma react_cooldown (env : Env) (sys : System) (a : Action) :
  a <> TimerFires ->
  listeners (client sys) !! sub_id (subscription (component sys)) = Some onAuthEvent ->
  let s' := (run (react sys a) env (state (component sys))).1.2 in
  resendCooldown s' = cooldownOf sys \/ resendCooldown s' = 60.
Proof.
  intros Hnot Hcallback. unfold cooldownOf.
  destruct a; simpl; try rewrite Hcallback; try congruence;
    handler_unfold; simpl; split_matches; auto.
Qed.

Lemma mount_invariant (env : Env) (before : AuthClient) :
  Invariant before (mount env before).1.
Proof.
  unfold mount.
  assert (Hcool : resendCooldown (run checkAuthState env initial).1.2 = 0).
  { handler_unfold. simpl. split_matches; reflexivity. }
  destruct (run checkAuthState env initial) as [[c s] t]. simpl in Hcool.
  split; unfold cooldownOf; simpl; rewrite ?Hcool; try done.
  apply not_elem_of_dom_1, is_fresh.
Qed.

Lemma step_invariant (env : Env) (before : AuthClient) (sys : System) (a : Action) :
  Invariant before sys -> Invariant before (step env sys a).1.
Proof.
  intros [Htimer Hrange Hcleanup Hfresh Hclient].
  assert (Hcallback :
            listeners (client sys) !! sub_id (subscription (component sys))
            = Some onAuthEvent).
  { rewrite Hclient. apply lookup_insert_eq. }
  unfold step.
  assert (Hcase : a = TimerFires \/ a <> TimerFires)
    by (destruct a; (by left) || (by right)).
  destruct Hcase as [-> | Hnot].
  - simpl. rewrite Htimer. unfold cooldownEffect, cooldownOf in *.
    destruct (resendCooldown (state (component sys)) >? 0) eqn:Hpos.
    + split; unfold cooldownOf; simpl; try done.
      * unfold commitTimer, cooldownEffect.
        replace (_ =? _) with false by lia. reflexivity.
      * lia.
    + split; unfold cooldownOf; simpl; try done.
      unfold commitTimer, cooldownEffect. rewrite Z.eqb_refl. by rewrite Hpos.
  - pose proof (react_cooldown env sys a Hnot Hcallback) as Hcool.
    destruct (run (react sys a) env (state (component sys))) as [[c s] t].
    simpl in Hcool.
    assert (Hpending : match a with TimerFires => None | _ => pendingTimer (component sys) end
                       = pendingTimer (component sys)).
    { destruct a; congruence. }
    rewrite Hpending.
    split; unfold cooldownOf in *; simpl; try done.
    + unfold commitTimer.
      destruct (resendCooldown (state (component sys)) =? resendCooldown s) eqn:Heq.
      * apply Z.eqb_eq in Heq. by rewrite <- Heq.
      * reflexivity.
    + destruct Hcool as [-> | ->]; lia.
Qed.

Lemma reachable_invariant (before : AuthClient) (sys : System) :
  Reachable before sys -> Invariant before sys.
Proof.
  induction 1 as [env | env sys a _ IH];
    [apply mount_invariant | by apply step_invariant].
Qed.

(** *** The resend cooldown *)

Lemma step_resend_waits (env : Env) (sys : System) :
  0 < cooldownOf sys -> step env sys Resend = (sys, []).
Proof.
  intros Hcool. unfold step. simpl.
  rewrite (handleResendMagicLink_waits env _ Hcool).
  destruct sys as [cl [st sub clean pending]]. simpl.
  unfold commitTimer. by rewrite Z.eqb_refl.
Qed.

(** C4: in the waiting step of a mounted dialog, while the cooldown is
    positive the resend action changes nothing and sends nothing, and the
    timer sets the cooldown to one less; when the cooldown is 0 the resend
    action sends exactly one magic-link request and, if that succeeds,
    sets the cooldown to 60, and no timer is pending, so that a timer
    event changes nothing. *)
Theorem C4_resend_gated_by_cooldown (before : AuthClient) (sys : System) (env : Env) :
  Reachable before sys ->
  authStep (state (component sys)) = StepWaiting ->
  (0 < cooldownOf sys ->
   step env sys Resend = (sys, [])
   /\ state (component (step env sys TimerFires).1)
      = setResendCooldown (cooldownOf sys - 1) (state (component sys)))
  /\ (cooldownOf sys = 0 ->
      magicLinks (step env sys Resend).2
      = [EvSignInWithOtp (otpRequest env (email (state (component sys)))
                                     (email (state (component sys))))]
      /\ (signInWithOtp env (otpRequest env (email (state (component sys)))
                                        (email (state (component sys))))
          = Fulfilled None ->
          cooldownOf (step env sys Resend).1 = 60)
      /\ step env sys TimerFires = (sys, [])).
Proof.
  intros Hreach _. destruct (reachable_invariant before sys Hreach) as [Htimer _ _ _ _].
  unfold cooldownEffect in Htimer. split.
  - intros Hcool. split; [by apply step_resend_waits |].
    unfold step. simpl. rewrite Htimer.
    by replace (cooldownOf sys >? 0) with true by lia.
  - intros Hzero. rewrite Hzero in Htimer. simpl in Htimer.
    assert (Hsends := handleResendMagicLink_sends env (state (component sys))).
    unfold cooldownOf in Hzero. specialize (Hsends ltac:(lia)). simpl in Hsends.
    repeat split.
    + unfold step. simpl. rewrite Hsends.
      by destruct (signInWithOtp env _) as [[e |] | err].
    + intros Hok. unfold step, cooldownOf. simpl. rewrite Hsends, Hok. reflexivity.
    + unfold step. simpl. rewrite Htimer.
      destruct sys as [cl [st sub clean pending]]. simpl in *.
      unfold commitTimer. rewrite Z.eqb_refl. by subst pending.
Qed.

(** C4 for the dialog that has just sent its first magic link. *)
Lemma C4_witness :
  (0 < cooldownOf Examples.waitingSystem ->
   step Examples.signedOut Examples.waitingSystem Resend = (Examples.waitingSystem, [])
   /\ state (component (step Examples.signedOut Examples.waitingSystem TimerFires).1)
      = setResendCooldown (cooldownOf Examples.waitingSystem - 1)
                          (state (component Examples.waitingSystem)))
  /\ (cooldownOf Examples.waitingSystem = 0 ->
      magicLinks (step Examples.signedOut Examples.waitingSystem Resend).2
      = [EvSignInWithOtp
           (otpRequest Examples.signedOut
              (email (state (component Examples.waitingSystem)))
              (email (state (component Examples.waitingSystem))))]
      /\ (signInWithOtp Examples.signedOut
            (otpRequest Examples.signedOut
               (email (state (component Examples.waitingSystem)))
               (email (state (component Examples.waitingSystem))))
          = Fulfilled None ->
          cooldownOf (step Examples.signedOut Examples.waitingSystem Resend).1 = 60)
      /\ step Examples.signedOut Examples.waitingSystem TimerFires
         = (Examples.waitingSystem, [])).
Proof.
  apply (C4_resend_gated_by_cooldown Examples.freshClient Examples.waitingSystem
           Examples.signedOut).
  - apply reach_step, reach_step, reach_mount.
  - reflexivity.
Defined.

(** *** The subscription *)

(** C9: for every mounted dialog, whatever happened since the mount, the
    cleanup kept from the subscription effect is the [unsubscribe] of the
    subscription made at the mount; the provider holds the dialog's
    callback under that subscription while the dialog is mounted, and
    unmounting removes it and leaves the provider as it was before the
    mount. *)
Theorem C9_subscription_released_on_unmount (before : AuthClient) (sys : System) :
  Reachable before sys ->
  cleanup (component sys) = unsubscribe (subscription (component sys))
  /\ listeners (client sys) !! sub_id (subscription (component sys)) = Some onAuthEvent
  /\ listeners (unmount sys) !! sub_id (subscription (component sys)) = None
  /\ unmount sys = before.
Proof.
  intros Hreach.
  destruct (reachable_invariant before sys Hreach) as [_ _ Hcleanup Hfresh Hclient].
  assert (Hgone : unmount sys = before).
  { unfold unmount. rewrite Hcleanup. unfold unsubscribe. rewrite Hclient.
    rewrite delete_insert_id by exact Hfresh. by destruct before. }
  repeat split.
  - exact Hcleanup.
  - rewrite Hclient. apply lookup_insert_eq.
  - by rewrite Hgone.
  - exact Hgone.
Qed.

(** C9 for the dialog in the waiting step. *)
Lemma C9_witness :
  cleanup (component Examples.waitingSystem)
  = unsubscribe (subscription (component Examples.waitingSystem))
  /\ listeners (client Examples.waitingSystem)
       !! sub_id (subscription (component Examples.waitingSystem)) = Some onAuthEvent
  /\ listeners (unmount Examples.waitingSystem)
       !! sub_id (subscription (component Examples.waitingSystem)) = None
  /\ unmount Examples.waitingSystem = Examples.freshClient.
Proof.
  apply (C9_subscription_released_on_unmount Examples.freshClient Examples.waitingSystem).
  apply reach_step, reach_step, reach_mount.
Defined.

End CheckoutFacts.

(* ===================================================================== *)
(** ** Properties of the dashboards *)
(* ===================================================================== *)

Section DashboardFacts.
Import Dashboard.

#[local] Arguments entriesFor : simpl never.

(** [getInvoiceForOrder] returns the first invoice of the order, if any. *)
Lemma getInvoiceForOrder_first (invoices : list Invoice) (orderId : string) :
  match getInvoiceForOrder invoices orderId with
  | Some invoice =>
      order_id invoice = orderId
      /\ exists earlier later,
          invoices = earlier ++ invoice :: later
          /\ Forall (fun other => order_id other <> orderId) earlier
  | None => Forall (fun other => order_id other <> orderId) invoices
  end.
Proof.
  unfold getInvoiceForOrder.
  induction invoices as [| invoice invoices IH]; simpl; [by constructor |].
  destruct (String.eqb (order_id invoice) orderId) eqn:Heq.
  - apply String.eqb_eq in Heq. split; [done |]. by exists [], invoices.
  - apply String.eqb_neq in Heq.
    destruct (List.find _ invoices) as [found |].
    + destruct IH as (Hid & earlier & later & -> & Hearlier).
      split; [done |]. exists (invoice :: earlier), later. split; [done |].
      by constructor.
    + by constructor.
Qed.

Lemma cardInvoices_orderCards (orders : list Order) (invoices : list Invoice) :
  cardInvoices (orderCards orders invoices)
  = omap (fun order => getInvoiceForOrder invoices (id order)) orders.
Proof.
  unfold cardInvoices, orderCards.
  induction orders as [| order orders IH]; simpl; [done |].
  unfold omap in *. simpl. by rewrite IH.
Qed.

Lemma entriesFor_cons (orderId : string) (invoice : Invoice) (shown : list Invoice) :
  entriesFor orderId (invoice :: shown)
  = if String.eqb (order_id invoice) orderId
    then invoice :: entriesFor orderId shown
    else entriesFor orderId shown.
Proof. reflexivity. Qed.

Lemma entriesFor_no_order (orders : list Order) (invoices : list Invoice) (orderId : string) :
  orderId ∉ map id orders ->
  entriesFor orderId (omap (fun order => getInvoiceForOrder invoices (id order)) orders) = [].
Proof.
  induction orders as [| order orders IH]; simpl; [done |].
  intros Hnotin. apply not_elem_of_cons in Hnotin as [Hne Hnotin].
  pose proof (getInvoiceForOrder_first invoices (id order)) as Hfirst.
  destruct (getInvoiceForOrder invoices (id order)) as [invoice |]; simpl; [| by apply IH].
  destruct Hfirst as [Hid _]. rewrite entriesFor_cons.
  replace (String.eqb (order_id invoice) orderId) with false; [by apply IH |].
  symmetry. apply String.eqb_neq. congruence.
Qed.

Lemma entriesFor_cards (orders : list Order) (invoices : list Invoice) (orderId : string) :
  NoDup (map id orders) ->
  (length (entriesFor orderId (cardInvoices (orderCards orders invoices))) <= 1)%nat.
Proof.
  rewrite cardInvoices_orderCards.
  induction orders as [| order orders IH]; simpl; [lia |].
  intros Hnodup. apply NoDup_cons in Hnodup as [Hnotin Hnodup].
  pose proof (getInvoiceForOrder_first invoices (id order)) as Hfirst.
  destruct (getInvoiceForOrder invoices (id order)) as [invoice |]; simpl; [| by apply IH].
  destruct Hfirst as [Hid _]. rewrite entriesFor_cons.
  destruct (String.eqb (order_id invoice) orderId) eqn:Heq; [| by apply IH].
  apply String.eqb_eq in Heq.
  rewrite entriesFor_no_order; [simpl; lia | congruence].
Qed.

Lemma rowInvoices_invoiceRows (invoices : list Invoice) :
  rowInvoices (invoiceRows invoices) = invoices.
Proof.
  unfold rowInvoices, invoiceRows.
  induction invoices as [| invoice invoices IH]; simpl; [done | by rewrite IH].
Qed.

Lemma entriesFor_absent (invoices : list Invoice) (orderId : string) :
  orderId ∉ map order_id invoices -> entriesFor orderId invoices = [].
Proof.
  induction invoices as [| other invoices IH]; simpl; [done |].
  intros Hnotin. apply not_elem_of_cons in Hnotin as [Hne Hnotin].
  rewrite entriesFor_cons.
  replace (String.eqb (order_id other) orderId) with false; [by apply IH |].
  symmetry. apply String.eqb_neq. congruence.
Qed.

Lemma entriesFor_distinct (invoices : list Invoice) (orderId : string) :
  NoDup (map order_id invoices) ->
  (length (entriesFor orderId invoices) <= 1)%nat.
Proof.
  induction invoices as [| invoice invoices IH]; simpl; [lia |].
  intros Hnodup. apply NoDup_cons in Hnodup as [Hnotin Hnodup].
  rewrite entriesFor_cons.
  destruct (String.eqb (order_id invoice) orderId) eqn:Heq; [| by apply IH].
  apply String.eqb_eq in Heq.
  rewrite entriesFor_absent; [simpl; lia | congruence].
Qed.

(** C8, as amended: in the per-restaurant dashboard every order card is
    joined to at most one invoice, the first held invoice whose order
    reference is the order's id, so that orders with distinct ids show at
    most one invoice entry per order identifier; the global dashboard
    shows one row for every held invoice, so that it shows at most one
    invoice entry per order identifier when no two held invoices have the
    same order reference. *)
Theorem C8_one_invoice_entry_per_order (orders : list Order) (invoices : list Invoice) :
  Forall (fun card =>
            card_invoice card = getInvoiceForOrder invoices (id (card_order card))
            /\ match card_invoice card with
               | Some invoice =>
                   order_id invoice = id (card_order card)
                   /\ exists earlier later,
                       invoices = earlier ++ invoice :: later
                       /\ Forall (fun other => order_id other <> id (card_order card)) earlier
               | None => Forall (fun other => order_id other <> id (card_order card)) invoices
               end)
         (orderCards orders invoices)
  /\ (NoDup (map id orders) ->
      forall orderId,
        (length (entriesFor orderId (cardInvoices (orderCards orders invoices))) <= 1)%nat)
  /\ rowInvoices (invoiceRows invoices) = invoices
  /\ (NoDup (map order_id invoices) ->
      forall orderId,
        (length (entriesFor orderId (rowInvoices (invoiceRows invoices))) <= 1)%nat).
Proof.
  repeat split.
  - unfold orderCards. apply Forall_map, Forall_forall. intros order _. simpl.
    split; [done | apply getInvoiceForOrder_first].
  - intros Hnodup orderId. by apply entriesFor_cards.
  - apply rowInvoices_invoiceRows.
  - intros Hnodup orderId. rewrite rowInvoices_invoiceRows. by apply entriesFor_distinct.
Qed.

(** C8 for two orders with one invoice each. *)
Lemma C8_witness :
  (length (entriesFor "o-1"
             (cardInvoices (orderCards [Examples.dinner; Examples.lunch]
                                       [Examples.lunchInvoice; Examples.dinnerInvoice])))
   <= 1)%nat
  /\ (length (entriesFor "o-1"
                (rowInvoices (invoiceRows [Examples.lunchInvoice; Examples.dinnerInvoice])))
      <= 1)%nat.
Proof.
  destruct (C8_one_invoice_entry_per_order
              [Examples.dinner; Examples.lunch]
              [Examples.lunchInvoice; Examples.dinnerInvoice])
    as (_ & Hcards & _ & Hrows).
  split.
  - apply Hcards. apply (bool_decide_unpack _). reflexivity.
  - apply Hrows. apply (bool_decide_unpack _). reflexivity.
Defined.

(** C8, as stated, fails in the global dashboard when two held invoices
    have the same order reference: both are shown. *)
Lemma C8_counterexample :
  ~ (length (entriesFor "o-1"
               (rowInvoices (invoiceRows [Examples.dinnerInvoice;
                                          Examples.dinnerInvoiceAgain])))
     <= 1)%nat.
Proof. vm_compute. lia. Qed.

End DashboardFacts.

(* ===================================================================== *)
(** ** Further properties of the checkout dialog *)
(* ===================================================================== *)

Section CheckoutHandlers.
Import Checkout CheckoutView.

Ltac unfold_prog :=
  cbv [run call handleEmailSubmit handleResendMagicLink handleDetailsSubmit
       handleBack onAuthEvent checkAuthState
       mbind M_bind bind mret M_ret ret tryCatch tryFinally emit await update
       asks when throw jsReturn].

Ltac innermost_cases :=
  repeat match goal with
    | |- context [match ?x with _ => _ end] =>
        lazymatch x with
        | context [match _ with _ => _ end] => fail
        | _ => destruct x eqn:?; simpl
        end
    end.

(** When the lookup of the current user rejects, the email submission
    sends no magic link: it logs, sets [error] to the rejection's message,
    or to 'Failed to send magic link' for a thrown value that is no
    [Error], clears [loading] and changes nothing else. *)
Theorem email_submit_user_lookup_rejected
  (env : Env) (r : State) (err : Thrown) :
  truthy (trim (email r)) = true ->
  getUser env = Rejected err ->
  run (handleEmailSubmit r) env r
  = (Normal tt,
     setLoading false (setError (Some (messageOr err "Failed to send magic link")) r),
     [EvPreventDefault; EvGetUser; EvConsoleError "Email submission error:"]).
Proof.
  intros Htrim Hget. unfold_prog. rewrite Htrim, Hget. simpl. by destruct r.
Qed.

Lemma email_submit_user_lookup_rejected_witness :
  run (handleEmailSubmit Examples.typedEmail)
      {| restaurant := Examples.spiceHut; location := Examples.menuPage;
         getSession := Fulfilled None; getUser := Rejected (JsError "Failed to fetch");
         signInWithOtp := fun _ => Fulfilled None |}
      Examples.typedEmail
  = (Normal tt,
     setLoading false (setError (Some "Failed to fetch") Examples.typedEmail),
     [EvPreventDefault; EvGetUser; EvConsoleError "Email submission error:"]).
Proof.
  apply (email_submit_user_lookup_rejected _ Examples.typedEmail (JsError "Failed to fetch"));
    reflexivity.
Defined.

(** The handlers of the email and waiting steps never end by an exception
    and never leave the dialog loading: whatever the provider answers,
    they complete normally, and they either changed nothing or ended with
    [loading] false. *)
Theorem link_handlers_complete_and_clear_loading (env : Env) (r : State) :
  (exists s t,
      run (handleEmailSubmit r) env r = (Normal tt, s, t)
      /\ (s = r \/ loading s = false))
  /\ (exists s t,
         run (handleResendMagicLink r) env r = (Normal tt, s, t)
         /\ (s = r \/ loading s = false)).
Proof.
  split; unfold_prog; simpl; innermost_cases; eexists _, _;
    (split; [reflexivity | (by left) || (by right)]).
Qed.

(** *** Mounting *)


(** *** Notifications of the session provider *)

(** A signed-in notification with a session puts the dialog on the
    details step for the session's user, from whatever step, and strips
    the [email] parameter; it keeps the typed email, the cooldown and the
    name, phone and table number of the draft; and delivering it again
    changes nothing more. *)
Theorem signed_in_notification (env : Env) (s : State) (sess : Session) :
  let after := (run (onAuthEvent "SIGNED_IN" (Some sess)) env s).1.2 in
  (run (onAuthEvent "SIGNED_IN" (Some sess)) env s).2
  = [EvConsoleLog "Auth state changed:"; EvStripEmailParam]
  /\ authStep after = StepDetails
  /\ user after = Some (session_user sess)
  /\ customerInfo after
     = withEmail (orElse (user_email (session_user sess)) "") (customerInfo s)
  /\ email after = email s
  /\ resendCooldown after = resendCooldown s
  /\ (run (onAuthEvent "SIGNED_IN" (Some sess)) env after).1.2 = after.
Proof. unfold_prog. simpl. by repeat split. Qed.

(** A notification that is neither a sign-in with a session nor a
    sign-out changes nothing; a sign-out puts the dialog back on the email
    step without a user and keeps the typed email, the draft and the
    cooldown.  Neither sends anything. *)
Theorem other_notifications (env : Env) (s : State) (event : string)
  (session : option Session) :
  (event <> "SIGNED_IN" \/ session = None) ->
  let '(c, after, t) := run (onAuthEvent event session) env s in
  c = Normal tt
  /\ t = [EvConsoleLog "Auth state changed:"]
  /\ after = (if String.eqb event "SIGNED_OUT"
              then setAuthStep StepEmail (setUser None s) else s).
Proof.
  intros Hother. unfold_prog. simpl.
  destruct (String.eqb event "SIGNED_IN") eqn:Hin.
  - apply String.eqb_eq in Hin. subst event.
    destruct Hother as [? | ->]; [done |]. by simpl.
  - destruct session; destruct (String.eqb event "SIGNED_OUT"); by simpl.
Qed.

Lemma other_notifications_witness :
  let '(c, after, t) :=
    run (onAuthEvent "TOKEN_REFRESHED" (Some {| session_user := Examples.asha |}))
        Examples.signedOut (Examples.detailsWith Examples.filledInfo) in
  c = Normal tt
  /\ t = [EvConsoleLog "Auth state changed:"]
  /\ after = (if String.eqb "TOKEN_REFRESHED" "SIGNED_OUT"
              then setAuthStep StepEmail
                     (setUser None (Examples.detailsWith Examples.filledInfo))
              else Examples.detailsWith Examples.filledInfo).
Proof.
  apply (other_notifications Examples.signedOut (Examples.detailsWith Examples.filledInfo)
           "TOKEN_REFRESHED" (Some {| session_user := Examples.asha |})).
  left. discriminate.
Defined.

(** *** What holds of every reachable dialog *)

Lemma mount_steady (env : Env) (before : AuthClient) :
  steady (state (component (mount env before).1)).
Proof.
  unfold steady, mount. unfold_prog. simpl. innermost_cases; by repeat split.
Qed.

Lemma step_steady (env : Env) (before : AuthClient) (sys : System) (a : Action) :
  Invariant before sys ->
  steady (state (component sys)) ->
  steady (state (component (step env sys a).1)).
Proof.
  intros [_ _ _ _ Hclient] (Hload & Hnot & Hdetails).
  assert (Hcallback :
            listeners (client sys) !! sub_id (subscription (component sys))
            = Some onAuthEvent).
  { rewrite Hclient. apply lookup_insert_eq. }
  unfold steady, step.
  destruct a; simpl; rewrite ?Hcallback;
    destruct sys as [cl [st sub clean pending]]; simpl in *;
    destruct st as [stp em sent ci u ld er cd]; simpl in *;
    unfold_prog; simpl; innermost_cases;
    repeat split; simpl; try done; try congruence; auto.
Qed.

Lemma reachable_steady (before : AuthClient) (sys : System) :
  Reachable before sys -> steady (state (component sys)).
Proof.
  induction 1 as [env | env sys a Hreach IH].
  - apply mount_steady.
  - eapply step_steady; [by apply reachable_invariant | exact IH].
Qed.

(** In every state the dialog can reach, nothing is loading, the step is
    not 'authenticated', the heading is one of the three texts, and on the
    details step there is a signed-in user. *)
Theorem reachable_dialog_is_steady (before : AuthClient) (sys : System) :
  Reachable before sys ->
  let s := state (component sys) in
  loading s = false
  /\ authStep s <> StepAuthenticated
  /\ heading s <> ""
  /\ (authStep s = StepDetails -> is_Some (user s)).
Proof.
  intros Hreach. destruct (reachable_steady before sys Hreach) as (Hload & Hnot & Hdetails).
  repeat split; try done.
  unfold heading. by destruct (authStep (state (component sys))).
Qed.

Lemma reachable_dialog_is_steady_witness :
  let s := state (component Examples.waitingSystem) in
  loading s = false
  /\ authStep s <> StepAuthenticated
  /\ heading s <> ""
  /\ (authStep s = StepDetails -> is_Some (user s)).
Proof.
  apply (reachable_dialog_is_steady Examples.freshClient Examples.waitingSystem).
  apply reach_step, reach_step, reach_mount.
Defined.

(** In every state the dialog can reach the cooldown is between 0 and 60,
    and a timer is pending exactly when the cooldown is positive; the
    pending timer has captured the current cooldown. *)
Theorem reachable_cooldown_bounds (before : AuthClient) (sys : System) :
  Reachable before sys ->
  0 <= cooldownOf sys <= 60
  /\ pendingTimer (component sys)
     = (if cooldownOf sys >? 0 then Some (cooldownOf sys) else None).
Proof.
  intros Hreach. destruct (reachable_invariant before sys Hreach) as [Htimer Hrange _ _ _].
  by split.
Qed.

Lemma reachable_cooldown_bounds_witness :
  0 <= cooldownOf Examples.waitingSystem <= 60
  /\ pendingTimer (component Examples.waitingSystem)
     = (if cooldownOf Examples.waitingSystem >? 0
        then Some (cooldownOf Examples.waitingSystem) else None).
Proof.
  apply (reachable_cooldown_bounds Examples.freshClient Examples.waitingSystem).
  apply reach_step, reach_step, reach_mount.
Defined.

(** *** Placing the order *)

Lemma step_placement (env : Env) (sys : System) (a : Action)
  (info : CustomerInfo) (u : option User) :
  listeners (client sys) !! sub_id (subscription (component sys)) = Some onAuthEvent ->
  steady (state (component sys)) ->
  offered (state (component sys)) a = true ->
  In (EvPlaceOrder info u) (step env sys a).2 ->
  is_Some u
  /\ truthy (trim (name info)) = true
  /\ truthy (trim (phone info)) = true
  /\ truthy (trim (tableNumber info)) = true.
Proof.
  intros Hcallback (Hload & Hnot & Hdetails). unfold step, offered.
  destruct a; simpl; rewrite ?Hcallback;
    destruct sys as [cl [st sub clean pending]]; simpl in *;
    destruct st as [stp em sent ci usr ld er cd]; simpl in *;
    unfold_prog; simpl; innermost_cases; simpl;
    intros Hoffered Hin; try discriminate;
    repeat match goal with
      | H : _ \/ _ |- _ => destruct H
      | H : False |- _ => destruct H
      | H : _ = _ |- _ => discriminate H
      end.
  all: match goal with
       | H : EvPlaceOrder _ _ = EvPlaceOrder _ _ |- _ => injection H as <- <-
       end.
  all: simpl in *; repeat split; auto;
    repeat match goal with
      | H : (_ || _) = false |- _ => apply orb_false_elim in H as [? ?]
      | H : negb _ = false |- _ => apply negb_false_iff in H
      end; auto.
Qed.

Lemma play_placement (before : AuthClient) (script : list (Env * Action)) :
  forall sys,
    Reachable before sys ->
    offeredAll sys script ->
    forall info u,
      In (EvPlaceOrder info u) (play sys script).2 ->
      is_Some u
      /\ truthy (trim (name info)) = true
      /\ truthy (trim (phone info)) = true
      /\ truthy (trim (tableNumber info)) = true.
Proof.
  induction script as [| [env a] script IH]; intros sys Hreach Hoffered info u; simpl.
  - intros [].
  - destruct Hoffered as [Hfirst Hrest].
    pose proof (reach_step before env sys a Hreach) as Hnext.
    specialize (IH (step env sys a).1 Hnext Hrest info u).
    pose proof (step_placement env sys a info u) as Hstep.
    destruct (step env sys a) as [sys' t]. simpl in *.
    destruct (play sys' script) as [final t']. simpl in *.
    rewrite in_app_iff. intros [Hin | Hin]; [| by apply IH].
    apply Hstep; try done.
    + destruct (reachable_invariant before sys Hreach) as [_ _ _ _ Hclient].
      rewrite Hclient. apply lookup_insert_eq.
    + by apply (reachable_steady before).
Qed.

(** In a run of the dialog in which every action is one the rendered
    dialog offers, the order-placement callback is only ever called with a
    signed-in user and with a non-empty trimmed name, phone and table
    number; mounting itself places no order. *)
Theorem orders_placed_only_for_verified_users
  (env : Env) (before : AuthClient) (script : list (Env * Action))
  (info : CustomerInfo) (u : option User) :
  offeredAll (mount env before).1 script ->
  In (EvPlaceOrder info u) ((mount env before).2 ++ (play (mount env before).1 script).2) ->
  is_Some u
  /\ truthy (trim (name info)) = true
  /\ truthy (trim (phone info)) = true
  /\ truthy (trim (tableNumber info)) = true.
Proof.
  intros Hoffered Hin. apply in_app_iff in Hin as [Hin | Hin].
  - exfalso. revert Hin. unfold mount. unfold_prog. simpl.
    innermost_cases; simpl; intuition discriminate.
  - eapply (play_placement before script); [apply reach_mount | exact Hoffered | exact Hin].
Qed.

Lemma orders_placed_only_for_verified_users_witness :
  is_Some (Some Examples.asha)
  /\ truthy (trim (name Examples.filledInfo)) = true
  /\ truthy (trim (phone Examples.filledInfo)) = true
  /\ truthy (trim (tableNumber Examples.filledInfo)) = true.
Proof.
  apply (orders_placed_only_for_verified_users
           (Examples.signedInAs Examples.asha) Examples.freshClient
           SampleRuns.orderScript Examples.filledInfo (Some Examples.asha)).
  - simpl. repeat split; reflexivity.
  - simpl. do 2 right. left. reflexivity.
Defined.

(** *** The countdown *)

Lemma setResendCooldown_same (s : State) (v : Z) :
  v = resendCooldown s -> setResendCooldown v s = s.
Proof. intros ->. by destruct s. Qed.

Lemma timer_step (before : AuthClient) (env : Env) (sys : System) :
  Reachable before sys ->
  (step env sys TimerFires).2 = []
  /\ state (component (step env sys TimerFires).1)
     = setResendCooldown (Z.max 0 (cooldownOf sys - 1)) (state (component sys)).
Proof.
  intros Hreach. destruct (reachable_invariant before sys Hreach) as [Htimer Hrange _ _ _].
  unfold step. simpl. rewrite Htimer. unfold cooldownEffect.
  destruct (cooldownOf sys >? 0) eqn:Hpos; simpl.
  - split; [done |]. f_equal. lia.
  - split; [done |]. symmetry. apply setResendCooldown_same. unfold cooldownOf in *. lia.
Qed.

Lemma ticks_state (before : AuthClient) (env : Env) (n : nat) :
  forall sys,
    Reachable before sys ->
    Reachable before (ticks n env sys)
    /\ state (component (ticks n env sys))
       = setResendCooldown (Z.max 0 (cooldownOf sys - Z.of_nat n)) (state (component sys)).
Proof.
  induction n as [| n IH]; intros sys Hreach.
  - split; [done |]. simpl. symmetry. apply setResendCooldown_same.
    destruct (reachable_invariant before sys Hreach) as [_ Hrange _ _ _].
    unfold cooldownOf in *. lia.
  - destruct (timer_step before env sys Hreach) as [_ Hstate].
    pose proof (reach_step before env sys TimerFires Hreach) as Hnext.
    destruct (IH _ Hnext) as [Hfinal Hafter].
    split; [exact Hfinal |]. cbn [ticks]. rewrite Hafter.
    unfold cooldownOf at 1. rewrite Hstate.
    change (resendCooldown (setResendCooldown ?v _)) with v.
    change (setResendCooldown ?a (setResendCooldown _ ?s)) with (setResendCooldown a s).
    destruct (reachable_invariant before sys Hreach) as [_ Hrange _ _ _].
    f_equal. lia.
Qed.

(** From any reachable state, [n] timer events in a row bring the cooldown
    to the larger of 0 and the cooldown minus [n], and change nothing
    else; a timer event has no external effect. *)
Theorem countdown (before : AuthClient) (env : Env) (sys : System) (n : nat) :
  Reachable before sys ->
  state (component (ticks n env sys))
  = setResendCooldown (Z.max 0 (cooldownOf sys - Z.of_nat n)) (state (component sys))
  /\ (step env sys TimerFires).2 = [].
Proof.
  intros Hreach. split.
  - by apply (ticks_state before env n sys).
  - by apply (timer_step before env sys).
Qed.

Lemma countdown_witness :
  state (component (ticks 25 Examples.signedOut Examples.waitingSystem))
  = setResendCooldown (Z.max 0 (cooldownOf Examples.waitingSystem - Z.of_nat 25))
                      (state (component Examples.waitingSystem))
  /\ (step Examples.signedOut Examples.waitingSystem TimerFires).2 = [].
Proof.
  apply (countdown Examples.freshClient Examples.signedOut Examples.waitingSystem 25).
  apply reach_step, reach_step, reach_mount.
Defined.

(** After a resend that succeeded, the resend button shows the seconds
    left and stays disabled for exactly 60 timer events: after [n] of them
    it is disabled if and only if [n] is below 60. *)
Theorem resend_disabled_for_sixty_ticks
  (before : AuthClient) (env env' : Env) (sys : System) (n : nat) :
  Reachable before sys ->
  cooldownOf sys = 0 ->
  signInWithOtp env (otpRequest env (email (state (component sys)))
                                (email (state (component sys)))) = Fulfilled None ->
  let sent := (step env sys Resend).1 in
  resendLabel (state (component sent)) = ResendIn 60
  /\ resendDisabled (state (component (ticks n env' sent))) = (Z.of_nat n <? 60).
Proof.
  intros Hreach Hzero Hok sent.
  pose proof (reach_step before env sys Resend Hreach) as Hsent. fold sent in Hsent.
  assert (Hcool : cooldownOf sent = 60).
  { unfold sent, step, cooldownOf. simpl.
    rewrite (handleResendMagicLink_sends env (state (component sys)))
      by (unfold cooldownOf in Hzero; lia).
    simpl. by rewrite Hok. }
  destruct (reachable_steady before sent Hsent) as (Hload & _ & _).
  split.
  - unfold resendLabel. fold (cooldownOf sent). by rewrite Hload, Hcool.
  - destruct (ticks_state before env' n sent Hsent) as [_ ->].
    unfold resendDisabled. simpl. rewrite Hload, Hcool, orb_false_r.
    destruct (Z.of_nat n <? 60) eqn:Hn; lia.
Qed.

Lemma resend_disabled_for_sixty_ticks_witness :
  let sent := (step Examples.signedOut Examples.redirectedSystem Resend).1 in
  resendLabel (state (component sent)) = ResendIn 60
  /\ resendDisabled (state (component (ticks 59 Examples.signedOut sent)))
     = (Z.of_nat 59 <? 60).
Proof.
  apply (resend_disabled_for_sixty_ticks Examples.freshClient Examples.signedOut
           Examples.signedOut Examples.redirectedSystem 59).
  - apply reach_mount.
  - reflexivity.
  - reflexivity.
Defined.

(** *** Going back *)

(** The back action has no external effect and never signs the customer
    out: it keeps the user, the typed email and the cooldown.  Where the
    back button is rendered it leads to the email step and clears the
    error; elsewhere it changes nothing; and a second back action changes
    nothing more. *)
Theorem back_keeps_session_and_cooldown (env : Env) (r : State) :
  let after := (run (handleBack r) env r).1.2 in
  run (handleBack r) env r = (Normal tt, after, [])
  /\ user after = user r
  /\ email after = email r
  /\ resendCooldown after = resendCooldown r
  /\ (if backShown r
      then authStep after = StepEmail /\ error after = None
      else after = r)
  /\ run (handleBack after) env after = (Normal tt, after, []).
Proof.
  unfold backShown. unfold_prog. destruct r as [stp em sent ci u ld er cd].
  destruct stp; simpl; by repeat split.
Qed.

(** The cooldown does not hold back the email form.  In every reachable
    state on the waiting step, whatever the cooldown, the back action is
    offered, and the email submission after it is offered exactly when the
    typed email has a non-empty trim; when the provider reports no user,
    going back and submitting then sends a new magic link at once, and
    with an empty trimmed email it sends none. *)
Theorem back_and_submit_sends_despite_cooldown
  (before : AuthClient) (env env' : Env) (sys : System) :
  Reachable before sys ->
  authStep (state (component sys)) = StepWaiting ->
  getUser env' = Fulfilled None ->
  offered (state (component sys)) Back = true
  /\ (offeredAll sys [(env, Back); (env', SubmitEmail)]
      <-> truthy (trim (email (state (component sys)))) = true)
  /\ magicLinks (play sys [(env, Back); (env', SubmitEmail)]).2
     = (if truthy (trim (email (state (component sys))))
        then [EvSignInWithOtp (otpRequest env' (trim (email (state (component sys))))
                                          (email (state (component sys))))]
        else []).
Proof.
  intros Hreach Hstep Hget.
  destruct (reachable_steady before sys Hreach) as (Hload & _ & _).
  destruct sys as [cl [st sub clean pending]]. simpl in *.
  destruct st as [stp em sent ci u ld er cd]. simpl in *. subst stp ld.
  split; [reflexivity |]. split.
  - simpl. unfold emailSubmitDisabled. simpl.
    destruct (truthy (trim em)); simpl; split; try done.
    + by intros (_ & ? & _).
  - unfold play, step. simpl. unfold_prog. simpl.
    destruct (truthy (trim em)) eqn:Htrim; simpl; [| done].
    rewrite Hget. simpl.
    by destruct (signInWithOtp env' _) as [[e |] | err].
Qed.

Lemma back_and_submit_sends_despite_cooldown_witness :
  offered (state (component Examples.waitingSystem)) Back = true
  /\ (offeredAll Examples.waitingSystem
        [(Examples.signedOut, Back); (Examples.signedOut, SubmitEmail)]
      <-> truthy (trim (email (state (component Examples.waitingSystem)))) = true)
  /\ magicLinks (play Examples.waitingSystem
                   [(Examples.signedOut, Back); (Examples.signedOut, SubmitEmail)]).2
     = (if truthy (trim (email (state (component Examples.waitingSystem))))
        then [EvSignInWithOtp
                (otpRequest Examples.signedOut
                   (trim (email (state (component Examples.waitingSystem))))
                   (email (state (component Examples.waitingSystem))))]
        else []).
Proof.
  apply (back_and_submit_sends_despite_cooldown Examples.freshClient Examples.signedOut
           Examples.signedOut Examples.waitingSystem).
  - apply reach_step, reach_step, reach_mount.
  - reflexivity.
  - reflexivity.
Defined.

(** Going back from the details step discards the draft but not the
    session: when the provider still reports the user of the typed email,
    going back and submitting the email again lands on the details step
    without a new magic link, with an empty name, phone and table
    number. *)
Theorem back_from_details_loses_draft_only (env env' : Env) (sys : System) (u : User) :
  authStep (state (component sys)) = StepDetails ->
  truthy (trim (email (state (component sys)))) = true ->
  getUser env' = Fulfilled (Some u) ->
  user_email u = Some (email (state (component sys))) ->
  let '(final, t) := play sys [(env, Back); (env', SubmitEmail)] in
  authStep (state (component final)) = StepDetails
  /\ user (state (component final)) = Some u
  /\ customerInfo (state (component final))
     = withEmail (email (state (component sys))) emptyInfo
  /\ magicLinks t = [].
Proof.
  intros Hstep Htrim Hget Hmatch.
  destruct sys as [cl [st sub clean pending]]. simpl in *.
  destruct st as [stp em sent ci usr ld er cd]. simpl in *. subst stp.
  unfold play, step. simpl. unfold_prog. simpl. rewrite Htrim, Hget. simpl.
  rewrite (strictEq_true _ _ Hmatch). by simpl.
Qed.

Lemma back_from_details_loses_draft_only_witness :
  let '(final, t) :=
    play SampleRuns.filledSystem
         [(SampleRuns.returned, Back); (SampleRuns.returned, SubmitEmail)] in
  authStep (state (component final)) = StepDetails
  /\ user (state (component final)) = Some Examples.asha
  /\ customerInfo (state (component final))
     = withEmail (email (state (component SampleRuns.filledSystem))) emptyInfo
  /\ magicLinks t = [].
Proof.
  apply (back_from_details_loses_draft_only SampleRuns.returned SampleRuns.returned
           SampleRuns.filledSystem Examples.asha);
    reflexivity.
Defined.

(** When the dialog mounts with a session and the address carries no
    non-empty [email] parameter, it opens on the details step with the
    user's email in the draft, but the 'Email (Verified)' box, which shows
    the typed email, is empty. *)
Theorem verified_email_box_empty_for_existing_session
  (env : Env) (before : AuthClient) (sess : Session) :
  getSession env = Fulfilled (Some sess) ->
  truthyOpt (emailParam (location env)) = false ->
  let s := state (component (mount env before).1) in
  authStep s = StepDetails
  /\ info_email (customerInfo s) = orElse (user_email (session_user sess)) ""
  /\ shownEmail s = "".
Proof.
  intros Hsession Hparam. unfold mount, shownEmail. unfold_prog. simpl.
  rewrite Hsession.
  destruct (emailParam (location env)) as [param |]; simpl in *.
  - rewrite Hparam. simpl. destruct param; [| discriminate].
    by repeat split.
  - by repeat split.
Qed.

Lemma verified_email_box_empty_for_existing_session_witness :
  let s := state (component SampleRuns.signedInSystem) in
  authStep s = StepDetails
  /\ info_email (customerInfo s) = orElse (user_email (session_user {| session_user := Examples.asha |})) ""
  /\ shownEmail s = "".
Proof.
  apply (verified_email_box_empty_for_existing_session
           (Examples.signedInAs Examples.asha) Examples.freshClient
           {| session_user := Examples.asha |}); reflexivity.
Defined.

End CheckoutHandlers.

(* ===================================================================== *)
(** ** Further properties of the order-status view *)
(* ===================================================================== *)

Section StatusPageFacts.
Import PaymentSuccess StatusPage.

Ltac unfold_view :=
  cbv [run call mountEffect handleRefresh fetchOrder fetchInvoice generateInvoice
       mbind M_bind bind mret M_ret ret tryCatch tryFinally emit await update
       asks when throw jsReturn].

(** [fetchInvoice] in full: one request, a normal completion, and the
    invoice of the answer, when it delivers one, as the only change. *)
Lemma fetchInvoice_outcome (env : Backend) (s : State) (t : list Event) (orderId : string) :
  exists logged,
    call (fetchInvoice orderId) env s t
    = (Normal tt,
       match deliveredInvoice (fetch env (invoiceUrl orderId)) with
       | Some inv => setInvoice (Some inv) s
       | None => s
       end,
       t ++ EvFetch (invoiceUrl orderId) :: logged)
    /\ invoiceLookups logged = [].
Proof.
  unfold_view. unfold deliveredInvoice.
  destruct (fetch env (invoiceUrl orderId)) as [response | e].
  - destruct (ok response).
    + destruct (json response) as [result | e].
      * destruct (success result), (result_invoice result);
          exists []; (split; [reflexivity | by simpl]).
      * exists [EvConsoleError "Error fetching invoice:"].
        rewrite <- app_assoc. by split.
    + exists []. by split.
  - exists [EvConsoleError "Error fetching invoice:"]. rewrite <- app_assoc. by split.
Qed.

(** A failed invoice lookup is silent: whatever the invoice endpoint
    answers, [fetchInvoice] sends one request, completes normally, never
    sets [error], and changes the state only by storing the invoice of an
    answer that is ok, parses, reports success and holds one. *)
Theorem invoice_lookup_degrades_silently (env : Backend) (s : State) (orderId : string) :
  let '(c, after, t) := run (fetchInvoice orderId) env s in
  c = Normal tt
  /\ invoiceLookups t = [EvFetch (invoiceUrl orderId)]
  /\ after = match deliveredInvoice (fetch env (invoiceUrl orderId)) with
             | Some inv => setInvoice (Some inv) s
             | None => s
             end.
Proof.
  unfold run.
  destruct (fetchInvoice_outcome env s [] orderId) as (logged & Hrun & Hlogged).
  change (call (call (fetchInvoice orderId)) env s [])
    with (match call (fetchInvoice orderId) env s [] with
          | (Return, s', t') => (Normal tt, s', t')
          | done => done
          end).
  rewrite Hrun. simpl. repeat split.
  unfold invoiceLookups in *. simpl. by rewrite Hlogged.
Qed.

Lemma fetchOrder_outcome (env : Backend) (s : State) (t : list Event)
  (orderId : option string) :
  exists logged,
    fetchOrder orderId env s t
    = (Normal tt, afterLoad env orderId s, t ++ EvSelectOrder orderId :: logged).
Proof.
  unfold afterLoad, loadedOrder, fetchOrder.
  cbv [mbind M_bind bind mret M_ret ret tryCatch emit await update when throw].
  destruct (selectOrder env orderId) as [[d qe] | e]; simpl.
  - destruct qe as [e |]; simpl.
    { eexists [_]. by rewrite <- app_assoc. }
    destruct d as [row |]; simpl.
    + destruct (strictEq (row_payment_status row) "SUCCESS").
      * destruct (fetchInvoice_outcome env (setOrder (Some (orderOfRow row)) s)
                    (t ++ [EvSelectOrder orderId]) (row_id row))
          as (logged & Hrun & _).
        rewrite Hrun. rewrite <- app_assoc. simpl. by eexists.
      * by exists [].
    + eexists [_]. by rewrite <- app_assoc.
  - eexists [_]. by rewrite <- app_assoc.
Qed.

(** A refresh never clears an error.  It completes normally, ends with
    [refreshing] false and leaves [loading] alone; a load that succeeds
    replaces the order and keeps [error] as it was, so a view that was on
    the not-found screen for an error stays there; a load that fails keeps
    the order and the invoice it had and puts the view on the not-found
    screen. *)
Theorem refresh_never_clears_error (env : Backend) (s : State) (orderId : option string) :
  let '(c, after, t) := run (handleRefresh orderId) env s in
  c = Normal tt
  /\ refreshing after = false
  /\ loading after = loading s
  /\ (truthyOpt (error s) = true -> truthyOpt (error after) = true)
  /\ match loadedOrder env orderId with
     | Some row => order after = Some (orderOfRow row) /\ error after = error s
     | None =>
         order after = order s
         /\ invoice after = invoice s
         /\ error after = Some "Failed to load order details"
         /\ (loading s = false -> render after = NotFoundScreen)
     end.
Proof.
  unfold run, handleRefresh.
  cbv [call mbind M_bind bind mret M_ret ret update].
  destruct (fetchOrder_outcome env (setRefreshing true s) [] orderId) as (logged & ->).
  simpl. unfold afterLoad.
  destruct (loadedOrder env orderId) as [row |]; simpl.
  - destruct (strictEq (row_payment_status row) "SUCCESS");
      [destruct (deliveredInvoice _) |]; by repeat split.
  - repeat split. unfold render. simpl. by intros ->.
Qed.

(** A mount with an order identifier whose load succeeds ends on the
    status screen of the loaded order; the invoice held is the one the
    lookup delivered for a paid order, and none otherwise. *)
Theorem mount_shows_loaded_order (env : Backend) (orderId : option string) (row : OrderRow) :
  truthyOpt orderId = true ->
  loadedOrder env orderId = Some row ->
  let '(c, after, t) := run (mountEffect orderId) env initial in
  c = Normal tt
  /\ render after = StatusScreen (orderOfRow row)
  /\ invoice after
     = (if strictEq (row_payment_status row) "SUCCESS"
        then deliveredInvoice (fetch env (invoiceUrl (row_id row))) else None)
  /\ hd_error t = Some (EvSelectOrder orderId).
Proof.
  intros Htruthy Hload. unfold run, mountEffect. rewrite Htruthy. simpl.
  cbv [call mbind M_bind bind mret M_ret ret update].
  destruct (fetchOrder_outcome env initial [] orderId) as (logged & ->).
  simpl. unfold afterLoad. rewrite Hload.
  destruct (strictEq (row_payment_status row) "SUCCESS");
    [destruct (deliveredInvoice _) |]; by repeat split.
Qed.

Lemma mount_shows_loaded_order_witness :
  let '(c, after, t) :=
    run (mountEffect (Some "0d9f3c1e-77aa")) SampleOrders.backend initial in
  c = Normal tt
  /\ render after = StatusScreen (orderOfRow SampleOrders.paidRow)
  /\ invoice after
     = (if strictEq (row_payment_status SampleOrders.paidRow) "SUCCESS"
        then deliveredInvoice
               (fetch SampleOrders.backend (invoiceUrl (row_id SampleOrders.paidRow)))
        else None)
  /\ hd_error t = Some (EvSelectOrder (Some "0d9f3c1e-77aa")).
Proof.
  apply (mount_shows_loaded_order SampleOrders.backend (Some "0d9f3c1e-77aa")
           SampleOrders.paidRow); reflexivity.
Defined.

(** *** The status screen *)

Lemma info_is_descriptor (v : option string) :
  exists c, getPaymentStatusInfo v = descriptor c.
Proof.
  unfold getPaymentStatusInfo.
  destruct (strictEq v "SUCCESS"); [by exists Success |].
  destruct (strictEq v "FAILED"); [by exists Failed |].
  destruct (strictEq v "PENDING" || strictEq v "PROCESSING");
    [by exists Processing | by exists Unset].
Qed.

(** On the status screen the parts agree with the classification of the
    payment status, whatever string it is: the icon spins exactly when it
    is the loader; the estimate and the invoice card are shown exactly
    when the icon is the check mark, and then the refresh button is not;
    the dot of the badge has the colour of the icon; and the badge reads
    'Order Placed' only under the clock. *)
Theorem status_screen_parts_agree (s : State) (o : Order) :
  let v := statusView s o in
  (view_spin v = true <-> icon (view_info v) = Loader2)
  /\ (is_Some (view_panel v) <-> icon (view_info v) = CheckCircle)
  /\ (is_Some (view_estimate v) <-> is_Some (view_panel v))
  /\ (is_Some (view_refresh v) -> view_panel v = None)
  /\ view_dot v = "bg-" +:+ dropUnits 5 (color (view_info v))
  /\ (view_badge v = "Order Placed" -> icon (view_info v) = Clock).
Proof.
  unfold statusView. simpl.
  assert (Hdot : forall v, replaceFirst "text-" "bg-" (color (getPaymentStatusInfo v))
                           = "bg-" +:+ dropUnits 5 (color (getPaymentStatusInfo v))).
  { intros v. destruct (info_is_descriptor v) as [c ->]. by destruct c. }
  destruct (payment_status o) as [status |]; simpl.
  - destruct (String.eqb_spec status "SUCCESS") as [-> | Hsuccess].
    { simpl. repeat split; try done; try (by intros [? ?]); by eauto. }
    destruct (String.eqb_spec status "FAILED") as [-> | Hfailed].
    { simpl. repeat split; try done; by intros [? ?]. }
    destruct (String.eqb_spec status "PENDING") as [-> | Hpending].
    { simpl. repeat split; try done; by intros [? ?]. }
    destruct (String.eqb_spec status "PROCESSING") as [-> | Hprocessing].
    { simpl. repeat split; try done; by intros [? ?]. }
    pose proof (Hdot (Some status)) as Hthis.
    unfold getPaymentStatusInfo, strictEq in *.
    apply String.eqb_neq in Hsuccess, Hfailed, Hpending, Hprocessing.
    rewrite Hsuccess, Hfailed, Hpending, Hprocessing in *. simpl in *.
    repeat split; try done; by intros [? ?].
  - repeat split; try done; by intros [? ?].
Qed.

(** *** Generating the invoice *)

(** [generateInvoice] in full, for a render that holds an order. *)
Lemma generateInvoice_outcome (env : InvoiceApi) (r : State) (o : Order) :
  order r = Some o ->
  exists logged,
    run (generateInvoice r) env r
    = (Normal tt,
       setLoadingInvoice false
         match deliveredInvoice (post env "/api/invoice" (id o)) with
         | Some inv => setInvoice (Some inv) r
         | None => r
         end,
       EvPost "/api/invoice" (id o) :: logged)
    /\ Forall (fun e => match e with EvPost _ _ => False | _ => True end) logged.
Proof.
  intros Horder. unfold_view. rewrite Horder. unfold deliveredInvoice. simpl.
  destruct (post env "/api/invoice" (id o)) as [response | e]; simpl.
  - destruct (ok response); simpl.
    + destruct (json response) as [result | e]; simpl.
      * destruct (success result), (result_invoice result); simpl;
          exists []; split; try done; by destruct r.
      * eexists [_]. split; [by destruct r | by repeat constructor].
    + exists []. split; [by destruct r | done].
  - eexists [_]. split; [by destruct r | by repeat constructor].
Qed.

(** Generating the invoice does nothing without a loaded order.  With
    one, whatever the endpoint answers, it sends exactly one request, for
    that order, completes normally, never sets [error], ends with
    [loadingInvoice] false, and holds the invoice of an answer that
    delivers one, keeping the invoice it had otherwise. *)
Theorem generate_invoice_requests_once (env : InvoiceApi) (r : State) :
  let '(c, after, t) := run (generateInvoice r) env r in
  c = Normal tt
  /\ match order r with
     | None => after = r /\ t = []
     | Some o =>
         List.filter (fun e => match e with EvPost _ _ => true | _ => false end) t
         = [EvPost "/api/invoice" (id o)]
         /\ loadingInvoice after = false
         /\ error after = error r
         /\ order after = order r
         /\ invoice after
            = match deliveredInvoice (post env "/api/invoice" (id o)) with
              | Some inv => Some inv
              | None => invoice r
              end
     end.
Proof.
  destruct (order r) as [o |] eqn:Horder.
  - destruct (generateInvoice_outcome env r o Horder) as (logged & -> & Hlogged).
    split; [done |]. simpl. repeat split.
    + f_equal. induction Hlogged as [| e logged He _ IH]; simpl; [done |].
      by destruct e.
    + by destruct (deliveredInvoice _).
    + by destruct (deliveredInvoice _).
    + by destruct (deliveredInvoice _).
  - unfold_view. by rewrite Horder.
Qed.

(** For a paid order without an invoice the screen offers the Generate
    button; after a generation whose answer delivers an invoice the same
    screen shows that invoice with its View address, and after one whose
    answer delivers none it offers the button again, enabled. *)
Theorem generate_invoice_updates_the_card (env : InvoiceApi) (r : State) (o : Order) :
  order r = Some o ->
  invoice r = None ->
  payment_status o = Some "SUCCESS" ->
  let after := (run (generateInvoice r) env r).1.2 in
  view_panel (statusView r o) = Some (GenerateButton (loadingInvoice r))
  /\ view_panel (statusView after o)
     = Some match deliveredInvoice (post env "/api/invoice" (id o)) with
            | Some inv =>
                InvoiceActions inv ("/api/invoice/" +:+ invoice_id inv +:+ "?format=html")
            | None => GenerateButton false
            end.
Proof.
  intros Horder Hinvoice Hpaid.
  destruct (generateInvoice_outcome env r o Horder) as (logged & -> & _).
  unfold statusView. rewrite Hpaid, Hinvoice. simpl. split; [done |].
  destruct (deliveredInvoice _); simpl; by rewrite ?Hinvoice.
Qed.

Lemma generate_invoice_updates_the_card_witness :
  let after := (run (generateInvoice SampleOrders.paidWithoutInvoice)
                    SampleOrders.invoiceApi SampleOrders.paidWithoutInvoice).1.2 in
  view_panel (statusView SampleOrders.paidWithoutInvoice (orderOfRow SampleOrders.paidRow))
  = Some (GenerateButton (loadingInvoice SampleOrders.paidWithoutInvoice))
  /\ view_panel (statusView after (orderOfRow SampleOrders.paidRow))
     = Some match deliveredInvoice
                  (post SampleOrders.invoiceApi "/api/invoice"
                        (id (orderOfRow SampleOrders.paidRow))) with
            | Some inv =>
                InvoiceActions inv ("/api/invoice/" +:+ invoice_id inv +:+ "?format=html")
            | None => GenerateButton false
            end.
Proof.
  apply (generate_invoice_updates_the_card SampleOrders.invoiceApi
           SampleOrders.paidWithoutInvoice (orderOfRow SampleOrders.paidRow));
    reflexivity.
Defined.

End StatusPageFacts.

(* ===================================================================== *)
(** ** Properties of the global dashboard *)
(* ===================================================================== *)

Section GlobalDashboardFacts.
Import Dashboard DashboardData GlobalDashboard.

Ltac unfold_page :=
  cbv [run call checkUser fetchInvoices handleSignOut handleViewInvoice
       mbind M_bind bind mret M_ret ret tryCatch tryFinally emit await update
       asks when throw jsReturn].

Ltac page_cases :=
  repeat match goal with
    | |- context [match ?x with _ => _ end] =>
        lazymatch x with
        | context [match _ with _ => _ end] => fail
        | _ => destruct x eqn:?; simpl
        end
    end.

(** Without a session the global dashboard asks for no invoices: it
    redirects to the home page once and only clears [loading].  Mounted
    that way, the page renders the dashboard itself, with no email and the
    empty state, rather than nothing. *)
Theorem global_dashboard_without_session (env : Services) (s : State) :
  getSession env = Fulfilled {| session := None; sessionError := None |} ->
  let '(c, after, t) := run checkUser env s in
  c = Normal tt
  /\ after = setLoading false s
  /\ queries t = []
  /\ redirects t = [EvPush "/"]
  /\ render (run checkUser env initial).1.2 = Board None [] false.
Proof.
  intros Hsession. unfold_page. rewrite Hsession. simpl. by repeat split.
Qed.

Lemma global_dashboard_without_session_witness :
  let '(c, after, t) :=
    run checkUser
        {| getSession := Fulfilled {| session := None; sessionError := None |};
           selectInvoices := fun _ => Rejected JsOther;
           signOut := Fulfilled tt |}
        initial in
  c = Normal tt
  /\ after = setLoading false initial
  /\ queries t = []
  /\ redirects t = [EvPush "/"]
  /\ render (run checkUser
               {| getSession := Fulfilled {| session := None; sessionError := None |};
                  selectInvoices := fun _ => Rejected JsOther;
                  signOut := Fulfilled tt |}
               initial).1.2 = Board None [] false.
Proof.
  apply (global_dashboard_without_session
           {| getSession := Fulfilled {| session := None; sessionError := None |};
              selectInvoices := fun _ => Rejected JsOther;
              signOut := Fulfilled tt |} initial).
  reflexivity.
Defined.

(** With a session the global dashboard asks once for the invoices of the
    session's user and redirects nowhere.  An answer without error
    replaces the invoices by its rows, none for a null [data]; an answer
    with an error, or a rejection, keeps the invoices and sets [error]:
    to the set-up message for the code 42P01, else to 'Failed to load
    invoices: ' followed by the error's message, or by 'Unknown error' for
    a value that is no [Error]. *)
Theorem global_dashboard_load (env : Services) (s : State) (sess : Checkout.Session) :
  getSession env = Fulfilled {| session := Some sess; sessionError := None |} ->
  let userId := Checkout.user_id (Checkout.session_user sess) in
  let '(c, after, t) := run checkUser env s in
  c = Normal tt
  /\ loading after = false
  /\ user after = Some (Checkout.session_user sess)
  /\ queries t = [EvSelectInvoices userId]
  /\ redirects t = []
  /\ match selectInvoices env userId with
     | Fulfilled {| invoicesData := rows; invoicesError := None |} =>
         invoices after = default [] rows /\ error after = error s
     | Fulfilled {| invoicesData := _; invoicesError := Some e |} =>
         invoices after = invoices s
         /\ error after
            = Some (if strictEq (code e) "42P01"
                    then "Invoices table not found. Please set up the database first."
                    else "Failed to load invoices: " +:+ messageOr (asThrown e) "Unknown error")
     | Rejected err =>
         invoices after = invoices s
         /\ error after = Some ("Failed to load invoices: " +:+ messageOr err "Unknown error")
     end.
Proof.
  intros Hsession userId. unfold_page. rewrite Hsession. simpl. fold userId.
  destruct (selectInvoices env userId) as [[rows [e |]] | err]; simpl.
  - destruct (strictEq (code e) "42P01"); simpl; by repeat split.
  - by repeat split.
  - by repeat split.
Qed.

Lemma global_dashboard_load_witness :
  let userId := Checkout.user_id (Checkout.session_user
                                    {| Checkout.session_user := Examples.asha |}) in
  let '(c, after, t) := run checkUser SampleDashboards.globalServices initial in
  c = Normal tt
  /\ loading after = false
  /\ user after = Some (Checkout.session_user {| Checkout.session_user := Examples.asha |})
  /\ queries t = [EvSelectInvoices userId]
  /\ redirects t = []
  /\ match selectInvoices SampleDashboards.globalServices userId with
     | Fulfilled {| invoicesData := rows; invoicesError := None |} =>
         invoices after = default [] rows /\ error after = error initial
     | Fulfilled {| invoicesData := _; invoicesError := Some e |} =>
         invoices after = invoices initial
         /\ error after
            = Some (if strictEq (code e) "42P01"
                    then "Invoices table not found. Please set up the database first."
                    else "Failed to load invoices: " +:+ messageOr (asThrown e) "Unknown error")
     | Rejected err =>
         invoices after = invoices initial
         /\ error after = Some ("Failed to load invoices: " +:+ messageOr err "Unknown error")
     end.
Proof.
  apply (global_dashboard_load SampleDashboards.globalServices initial
           {| Checkout.session_user := Examples.asha |}).
  reflexivity.
Defined.

(** The load of the global dashboard always ends: whatever the services
    answer it completes normally with [loading] false, and either leaves
    [error] as it was or sets it to a non-empty text, which the page then
    shows on its error screen. *)
Theorem global_dashboard_always_settles (env : Services) (s : State) :
  let '(c, after, t) := run checkUser env s in
  c = Normal tt
  /\ loading after = false
  /\ (error after = error s
      \/ exists text, error after = Some text /\ render after = ErrorScreen text).
Proof.
  unfold_page. simpl. page_cases; repeat split; try done;
    solve [ by left | right; eexists; split; [reflexivity | reflexivity] ].
Qed.

(** *** Badges and figures *)

(** On the global dashboard the icon and the colour of a status badge
    always have the same tone (green for 'paid', yellow for 'pending', red
    for anything else), and the Paid Invoices figure counts exactly the
    rows with a green badge; it never exceeds the number of invoices. *)
Theorem global_badges_and_paid_figure (s : State) :
  (forall status,
      getStatusIcon status = statusIcon (toneOf status)
      /\ getStatusColor status = statusColor (toneOf status))
  /\ paidInvoices s
     = length (List.filter
                 (fun row =>
                    String.eqb (getStatusColor (invoice_payment_status (row_invoice row)))
                               (statusColor Green))
                 (invoiceRows (invoices s)))
  /\ (paidInvoices s <= length (invoices s))%nat.
Proof.
  split; [intros text; split | split].
  - unfold getStatusIcon, toneOf.
    destruct (String.eqb text "paid"); [done |]. by destruct (String.eqb text "pending").
  - unfold getStatusColor, toneOf.
    destruct (String.eqb text "paid"); [done |]. by destruct (String.eqb text "pending").
  - unfold paidInvoices, invoiceRows.
    induction (invoices s) as [| inv rest IH]; simpl; [done |].
    unfold getStatusColor at 1.
    destruct (String.eqb (invoice_payment_status inv) "paid"); simpl.
    + by rewrite IH.
    + by destruct (String.eqb (invoice_payment_status inv) "pending").
  - unfold paidInvoices. apply List.filter_length_le.
Qed.

End GlobalDashboardFacts.

(* ===================================================================== *)
(** ** Properties of the per-restaurant dashboard *)
(* ===================================================================== *)

Section RestaurantDashboardFacts.
Import Dashboard DashboardData RestaurantDashboard.

Ltac unfold_page :=
  cbv [run call checkAuthAndLoadData fetchOrders fetchInvoices handleSignOut
       handleBackToMenu handleViewInvoice
       mbind M_bind bind mret M_ret ret tryCatch tryFinally emit await update
       asks when throw jsReturn].

Ltac page_cases :=
  repeat match goal with
    | |- context [match ?x with _ => _ end] =>
        lazymatch x with
        | context [match _ with _ => _ end] => fail
        | _ => destruct x eqn:?; simpl
        end
    end.

(** Without a session the restaurant's dashboard sends no data query: it
    redirects once to the restaurant's menu, clears [error] and
    [loading], and touches nothing else; mounted that way it renders
    nothing. *)
Theorem restaurant_dashboard_without_session (env : Services) (s : State) :
  getSession env = Fulfilled {| session := None; sessionError := None |} ->
  let '(c, after, t) := run checkAuthAndLoadData env s in
  c = Normal tt
  /\ after = setLoading false (setError None s)
  /\ dataQueries t = []
  /\ redirects t = [EvPush (menuPath (restaurantSlug env))]
  /\ render (run checkAuthAndLoadData env initial).1.2 = Blank.
Proof.
  intros Hsession. unfold_page. rewrite Hsession. simpl. by repeat split.
Qed.

Lemma restaurant_dashboard_without_session_witness :
  let '(c, after, t) :=
    run checkAuthAndLoadData SampleDashboards.signedOutServices initial in
  c = Normal tt
  /\ after = setLoading false (setError None initial)
  /\ dataQueries t = []
  /\ redirects t = [EvPush (menuPath (restaurantSlug SampleDashboards.signedOutServices))]
  /\ render (run checkAuthAndLoadData SampleDashboards.signedOutServices initial).1.2
     = Blank.
Proof.
  apply (restaurant_dashboard_without_session SampleDashboards.signedOutServices initial).
  reflexivity.
Defined.

(** With a session, when the restaurant lookup rejects, returns an error
    or returns no row, the dashboard asks for no orders and no invoices
    and ends on an error screen: 'Restaurant not found' for an answer,
    'Failed to load dashboard data' for a rejection. *)
Theorem restaurant_dashboard_unknown_restaurant
  (env : Services) (s : State) (sess : Checkout.Session) :
  getSession env = Fulfilled {| session := Some sess; sessionError := None |} ->
  match selectRestaurant env (restaurantSlug env) with
  | Fulfilled {| restaurantData := Some _; restaurantError := None |} => False
  | _ => True
  end ->
  let '(c, after, t) := run checkAuthAndLoadData env s in
  c = Normal tt
  /\ dataQueries t = [EvSelectRestaurant (restaurantSlug env)]
  /\ orders after = orders s
  /\ invoices after = invoices s
  /\ render after
     = ErrorScreen match selectRestaurant env (restaurantSlug env) with
                   | Fulfilled _ => "Restaurant not found"
                   | Rejected _ => "Failed to load dashboard data"
                   end.
Proof.
  intros Hsession. unfold_page. rewrite Hsession. simpl.
  destruct (selectRestaurant env (restaurantSlug env)) as [[[found |] [e |]] | err];
    simpl; intros Hnot; try done.
Qed.

Lemma restaurant_dashboard_unknown_restaurant_witness :
  let '(c, after, t) :=
    run checkAuthAndLoadData SampleDashboards.unknownRestaurant initial in
  c = Normal tt
  /\ dataQueries t = [EvSelectRestaurant (restaurantSlug SampleDashboards.unknownRestaurant)]
  /\ orders after = orders initial
  /\ invoices after = invoices initial
  /\ render after
     = ErrorScreen match selectRestaurant SampleDashboards.unknownRestaurant
                           (restaurantSlug SampleDashboards.unknownRestaurant) with
                   | Fulfilled _ => "Restaurant not found"
                   | Rejected _ => "Failed to load dashboard data"
                   end.
Proof.
  apply (restaurant_dashboard_unknown_restaurant SampleDashboards.unknownRestaurant initial
           {| Checkout.session_user := Examples.asha |}).
  - reflexivity.
  - exact I.
Defined.

(** With a session and a known restaurant the dashboard sends three data
    queries, in this order: the restaurant by its slug, then the orders
    and the invoices of the session's user at that restaurant.  A failure
    of the orders or of the invoices query is silent: the list it would
    have replaced stays as it was, [error] stays empty, and the page shows
    the dashboard with the order cards of the lists it holds. *)
Theorem restaurant_dashboard_load
  (env : Services) (s : State) (sess : Checkout.Session) (found : Checkout.Restaurant) :
  getSession env = Fulfilled {| session := Some sess; sessionError := None |} ->
  selectRestaurant env (restaurantSlug env)
  = Fulfilled {| restaurantData := Some found; restaurantError := None |} ->
  let userId := Checkout.user_id (Checkout.session_user sess) in
  let restaurantId := Checkout.restaurant_id found in
  let '(c, after, t) := run checkAuthAndLoadData env s in
  c = Normal tt
  /\ dataQueries t
     = [EvSelectRestaurant (restaurantSlug env);
        EvSelectOrders userId restaurantId;
        EvSelectInvoices userId restaurantId]
  /\ redirects t = []
  /\ error after = None
  /\ orders after
     = match selectOrders env userId restaurantId with
       | Fulfilled {| ordersData := rows; ordersError := None |} => default [] rows
       | _ => orders s
       end
  /\ invoices after
     = match selectInvoices env userId restaurantId with
       | Fulfilled {| invoicesData := rows; invoicesError := None |} => default [] rows
       | _ => invoices s
       end
  /\ render after
     = Board (Checkout.session_user sess) found (orderCards (orders after) (invoices after)).
Proof.
  intros Hsession Hfound userId restaurantId. unfold_page.
  rewrite Hsession. simpl. rewrite Hfound. simpl. fold userId restaurantId.
  destruct (selectOrders env userId restaurantId) as [[orows [oe |]] | oerr]; simpl;
    destruct (selectInvoices env userId restaurantId) as [[irows [ie |]] | ierr]; simpl;
    by repeat split.
Qed.

Lemma restaurant_dashboard_load_witness :
  let userId := Checkout.user_id (Checkout.session_user
                                    {| Checkout.session_user := Examples.asha |}) in
  let restaurantId := Checkout.restaurant_id Examples.spiceHut in
  let '(c, after, t) :=
    run checkAuthAndLoadData SampleDashboards.restaurantServices initial in
  c = Normal tt
  /\ dataQueries t
     = [EvSelectRestaurant (restaurantSlug SampleDashboards.restaurantServices);
        EvSelectOrders userId restaurantId;
        EvSelectInvoices userId restaurantId]
  /\ redirects t = []
  /\ error after = None
  /\ orders after
     = match selectOrders SampleDashboards.restaurantServices userId restaurantId with
       | Fulfilled {| ordersData := rows; ordersError := None |} => default [] rows
       | _ => orders initial
       end
  /\ invoices after
     = match selectInvoices SampleDashboards.restaurantServices userId restaurantId with
       | Fulfilled {| invoicesData := rows; invoicesError := None |} => default [] rows
       | _ => invoices initial
       end
  /\ render after
     = Board (Checkout.session_user {| Checkout.session_user := Examples.asha |})
             Examples.spiceHut (orderCards (orders after) (invoices after)).
Proof.
  apply (restaurant_dashboard_load SampleDashboards.restaurantServices initial
           {| Checkout.session_user := Examples.asha |} Examples.spiceHut);
    reflexivity.
Defined.

(** *** The order cards *)

(** On every order card of the restaurant's dashboard the invoice actions
    are shown exactly when some held invoice refers to the order, and then
    for a held invoice of that order; otherwise the card reads 'Invoice
    being generated...' exactly when the order's payment status is
    'SUCCESS', and 'Invoice not available' for any other status. *)
Theorem order_card_invoice_corner (orders : list Order) (invoices : list Invoice) :
  Forall (fun card =>
            match invoiceCell card with
            | CellActions held url =>
                In held invoices
                /\ order_id held = id (card_order card)
                /\ url = viewUrl (invoice_id held)
            | CellGenerating =>
                Forall (fun other => order_id other <> id (card_order card)) invoices
                /\ payment_status (card_order card) = Some "SUCCESS"
            | CellUnavailable =>
                Forall (fun other => order_id other <> id (card_order card)) invoices
                /\ payment_status (card_order card) <> Some "SUCCESS"
            end)
         (orderCards orders invoices).
Proof.
  unfold orderCards. apply Forall_map, Forall_forall. intros order _.
  unfold invoiceCell. simpl.
  pose proof (getInvoiceForOrder_first invoices (id order)) as Hfirst.
  destruct (getInvoiceForOrder invoices (id order)) as [held |].
  - destruct Hfirst as (Hid & earlier & later & -> & _).
    repeat split; [| done]. apply in_or_app. right. by left.
  - destruct (payment_status order) as [text |]; simpl; [| by split].
    destruct (String.eqb_spec text "SUCCESS") as [-> | Hne]; split; congruence.
Qed.

End RestaurantDashboardFacts.

(* ===================================================================== *)
(** ** Properties shared by the dashboards *)
(* ===================================================================== *)

Section DashboardsCompared.
Import DashboardData.

(** Signing out redirects only after the provider's sign-out is
    fulfilled: then either page signs out once and goes to its entry
    point.  When the sign-out rejects there is no redirect: the global
    page lets the rejection escape its handler, the restaurant's page logs
    it. *)
Theorem sign_out_redirects_only_when_fulfilled
  (envG : GlobalDashboard.Services) (sG : GlobalDashboard.State)
  (envR : RestaurantDashboard.Services) (sR : RestaurantDashboard.State) :
  run GlobalDashboard.handleSignOut envG sG
  = match GlobalDashboard.signOut envG with
    | Fulfilled _ =>
        (Normal tt, sG, [GlobalDashboard.EvSignOut; GlobalDashboard.EvPush "/"])
    | Rejected err => (Throw err, sG, [GlobalDashboard.EvSignOut])
    end
  /\ run RestaurantDashboard.handleSignOut envR sR
     = match RestaurantDashboard.signOut envR with
       | Fulfilled _ =>
           (Normal tt, sR,
            [RestaurantDashboard.EvSignOut;
             RestaurantDashboard.EvPush
               (RestaurantDashboard.menuPath (RestaurantDashboard.restaurantSlug envR))])
       | Rejected err =>
           (Normal tt, sR,
            [RestaurantDashboard.EvSignOut;
             RestaurantDashboard.EvConsoleError "Error signing out:"])
       end.
Proof.
  split.
  - cbv [run call GlobalDashboard.handleSignOut
         mbind M_bind bind mret M_ret ret emit await].
    by destruct (GlobalDashboard.signOut envG).
  - cbv [run call RestaurantDashboard.handleSignOut
         mbind M_bind bind mret M_ret ret tryCatch emit await asks].
    by destruct (RestaurantDashboard.signOut envR).
Qed.

(** On the restaurant's dashboard, too, the icon and the colour of a
    badge always have the same tone; and the two dashboards give a status
    the same badge unless it is 'SUCCESS', 'confirmed' or 'PENDING', which
    only the restaurant's dashboard knows: there they are green, green and
    yellow, on the global dashboard red. *)
Theorem status_badges_of_the_two_dashboards (text : string) :
  (exists tone,
      RestaurantDashboard.getStatusIcon text = statusIcon tone
      /\ RestaurantDashboard.getStatusColor text = statusColor tone)
  /\ (RestaurantDashboard.getStatusColor text = GlobalDashboard.getStatusColor text
      <-> text <> "SUCCESS" /\ text <> "confirmed" /\ text <> "PENDING")
  /\ (RestaurantDashboard.getStatusIcon text = GlobalDashboard.getStatusIcon text
      <-> text <> "SUCCESS" /\ text <> "confirmed" /\ text <> "PENDING").
Proof.
  unfold RestaurantDashboard.getStatusIcon, RestaurantDashboard.getStatusColor,
    GlobalDashboard.getStatusIcon, GlobalDashboard.getStatusColor.
  destruct (String.eqb_spec text "SUCCESS") as [-> | Hsuccess];
    [simpl; repeat split; try (by exists Green); try done; by intros (? & _) |].
  destruct (String.eqb_spec text "confirmed") as [-> | Hconfirmed];
    [simpl; repeat split; try (by exists Green); try done; by intros (_ & ? & _) |].
  destruct (String.eqb_spec text "PENDING") as [-> | Hpending];
    [simpl; repeat split; try (by exists Yellow); try done; by intros (_ & _ & ?) |].
  destruct (String.eqb_spec text "paid") as [-> | Hpaid];
    [simpl; repeat split; try (by exists Green); done |].
  destruct (String.eqb_spec text "pending") as [-> | Hlower];
    [simpl; repeat split; try (by exists Yellow); done |].
  simpl. repeat split; try (by exists Red); done.
Qed.

End DashboardsCompared.

(* ===================================================================== *)
(** ** Properties of the print button *)
(* ===================================================================== *)

Section InvoicePrintFacts.
Import DashboardData InvoicePrint.

Lemma string_append_assoc (a b c : string) : (a +:+ b) +:+ c = a +:+ (b +:+ c).
Proof.
  induction a as [| ch a IH]; [reflexivity |].
  change (String ch ((a +:+ b) +:+ c) = String ch (a +:+ (b +:+ c))).
  by rewrite IH.
Qed.

(** The print button always ends with [printing] false and never lets an
    exception escape.  It opens the print address of the invoice, the
    View address followed by the auto-print flag, in a sized window; when
    that yields a window it focuses it and opens nothing else; when it
    yields none, or throws, it opens the same address once more without
    window features, and it alerts the customer only if this second call
    throws: a second call that again yields no window passes silently. *)
Theorem print_button_outcome (env : Browser) (invoiceId : string) (printing : bool) :
  let '(c, after, t) := run (printInvoice invoiceId) env printing in
  c = Normal tt
  /\ after = false
  /\ open_url (popup invoiceId) = viewUrl invoiceId +:+ "&auto_print=true"
  /\ open_url (fallback invoiceId) = open_url (popup invoiceId)
  /\ match windowOpen env (popup invoiceId) with
     | Fulfilled true =>
         opens t = [EvOpen (popup invoiceId)] /\ alerts t = []
     | _ =>
         opens t = [EvOpen (popup invoiceId); EvOpen (fallback invoiceId)]
         /\ alerts t
            = match windowOpen env (fallback invoiceId) with
              | Fulfilled _ => []
              | Rejected _ =>
                  [EvAlert "Unable to open print dialog. Please check if popups are blocked."]
              end
     end.
Proof.
  assert (Hurl : open_url (popup invoiceId) = viewUrl invoiceId +:+ "&auto_print=true").
  { unfold popup, printUrl, viewUrl. cbn [open_url].
    by rewrite !string_append_assoc. }
  cbv [run call printInvoice mbind M_bind bind mret M_ret ret tryCatch tryFinally
       emit await update throw].
  destruct (windowOpen env (popup invoiceId)) as [[|] | err]; simpl.
  - by repeat split.
  - destruct (windowOpen env (fallback invoiceId)); simpl; by repeat split.
  - destruct (windowOpen env (fallback invoiceId)); simpl; by repeat split.
Qed.

End InvoicePrintFacts.
